(** * A shallow embedding of [baseline/IMA宗宗主baseline.py]

    The script prompts a chat model with a few seed examples and a random
    pair of constraint labels, validates the shape of the answer and
    appends accepted records to an output file.

    Python [str] values are modelled as Rocq [string]s holding the UTF-8
    bytes of the text (the script reads and writes UTF-8 throughout).
    Everything the script takes from outside (environment variables, the
    file system, [random], [uuid], the HTTP endpoint) lives in a [world]
    record that is threaded through the code; exceptions are explicit. *)

From Stdlib Require Import ZArith Ascii String List Lia.
From stdpp Require Import base decidable option list strings pretty gmap.

Local Open Scope string_scope.
Local Open Scope Z_scope.

(** ** Python exceptions the script can meet *)

Module Py.

Inductive exn : Type :=
| RequestException (msg : string)   (* requests.exceptions.RequestException and subclasses *)
| KeyError (shown : string)         (* str(e) of the missing key *)
| IndexError (msg : string)
| TypeError
| ValueError
| AttributeError
| FileNotFoundError
| JSONDecodeError                   (* json.JSONDecodeError *)
| UnicodeEncodeError.

(** [str(e)], as the f-strings of the script print it.  The position
    text of a JSON decode error is not reproduced. *)
Definition str_exn (e : exn) : string :=
  match e with
  | RequestException msg => msg
  | KeyError shown => shown
  | IndexError msg => msg
  | JSONDecodeError => "JSONDecodeError"
  | TypeError => "TypeError"
  | ValueError => "ValueError"
  | AttributeError => "AttributeError"
  | FileNotFoundError => "FileNotFoundError"
  | UnicodeEncodeError => "UnicodeEncodeError"
  end.

(** Result of running a piece of code: a value, an exception that
    nobody caught, or a loop that used up the fuel it was given. *)
Inductive outcome (A : Type) : Type :=
| Ok (a : A)
| Raise (e : exn)
| Exhausted.
Arguments Ok {A} a.
Arguments Raise {A} e.
Arguments Exhausted {A}.

End Py.
Export Py.

(** ** Byte-level helpers for strings *)

Module Str.

Definition code (c : ascii) : N := N_of_ascii c.
Definition chr (n : N) : ascii := ascii_of_N n.

Definition newline : ascii := chr 10.
Definition carriage : ascii := chr 13.
Definition backslash : ascii := chr 92.
Definition dquote : ascii := chr 34.

Definition str1 (c : ascii) : string := String c EmptyString.

Fixpoint join (sep : string) (l : list string) : string :=
  match l with
  | [] => ""
  | x :: l' =>
      match l' with
      | [] => x
      | _ => x +:+ sep +:+ join sep l'
      end
  end.

Fixpoint concat (l : list string) : string :=
  match l with
  | [] => ""
  | x :: l' => x +:+ concat l'
  end.

Fixpoint repeat_str (n : nat) (s : string) : string :=
  match n with
  | O => ""
  | S n' => s +:+ repeat_str n' s
  end.

Fixpoint count_char (c : ascii) (s : string) : nat :=
  match s with
  | EmptyString => O
  | String a s' => (if Ascii.eqb a c then 1 else 0)%nat + count_char c s'
  end.

Fixpoint starts_with (p s : string) : bool :=
  match p, s with
  | EmptyString, _ => true
  | String a p', String b s' => Ascii.eqb a b && starts_with p' s'
  | String _ _, EmptyString => false
  end.

Fixpoint drop (n : nat) (s : string) : string :=
  match n, s with
  | O, _ => s
  | S n', String _ s' => drop n' s'
  | S _, EmptyString => EmptyString
  end.

(** [p in s] of two Python strings: substring search. *)
Fixpoint contains (p s : string) : bool :=
  starts_with p s ||
  match s with
  | EmptyString => false
  | String _ s' => contains p s'
  end.

(** Text mode with the default [newline=None]: "\r\n" and a lone "\r"
    are read as "\n". *)
Fixpoint universal_newlines (s : string) : string :=
  match s with
  | EmptyString => EmptyString
  | String a s' =>
      if Ascii.eqb a carriage then
        match s' with
        | String b s'' =>
            if Ascii.eqb b newline then String newline (universal_newlines s'')
            else String newline (universal_newlines s')
        | EmptyString => String newline EmptyString
        end
      else String a (universal_newlines s')
  end.

(** [f.readlines()] on translated text: every line keeps its "\n";
    a last line without one is kept too. *)
Fixpoint split_lines_go (cur : string) (s : string) : list string :=
  match s with
  | EmptyString => match cur with EmptyString => [] | _ => [String.rev cur] end
  | String a s' =>
      if Ascii.eqb a newline then String.rev (String a cur) :: split_lines_go "" s'
      else split_lines_go (String a cur) s'
  end.

Definition readlines (content : string) : list string :=
  split_lines_go "" (universal_newlines content).

(** One code point of white space in the sense of [str.isspace], read
    from the UTF-8 bytes: returns the rest of the string after it. *)
Definition ascii_space (c : ascii) : bool :=
  let n := code c in
  ((9 <=? n) && (n <=? 13) || (28 <=? n) && (n <=? 32))%N.

Definition take_space (s : string) : option string :=
  match s with
  | EmptyString => None
  | String a s1 =>
      if ascii_space a then Some s1 else
      match code a, s1 with
      | 194%N, String b s2 =>
          if ((code b =? 133) || (code b =? 160))%N then Some s2 else None
      | 225%N, String b (String c s3) =>
          if ((code b =? 154) && (code c =? 128))%N then Some s3 else None
      | 226%N, String b (String c s3) =>
          if ((code b =? 128) &&
              ((128 <=? code c) && (code c <=? 138) || (code c =? 168)
               || (code c =? 169) || (code c =? 175)))%N then Some s3
          else if ((code b =? 129) && (code c =? 159))%N then Some s3
          else None
      | 227%N, String b (String c s3) =>
          if ((code b =? 128) && (code c =? 128))%N then Some s3 else None
      | _, _ => None
      end
  end.

(** [not line.strip()]: the line holds white space only. *)
Fixpoint is_blank_go (fuel : nat) (s : string) : bool :=
  match s with
  | EmptyString => true
  | _ =>
      match fuel with
      | O => false
      | S fuel' =>
          match take_space s with
          | Some rest => is_blank_go fuel' rest
          | None => false
          end
      end
  end.

Definition is_blank (s : string) : bool := is_blank_go (String.length s) s.


End Str.

(** ** JSON values, as [json.loads] builds them and [json.dumps] prints them *)

Module Json.

(** A parsed JSON value is a Python object: [None], [bool], [int],
    [float], [str], [list] or [dict].  A [dict] keeps insertion order.
    A number written with a fraction or an exponent (and [NaN],
    [Infinity]) is a Python [float]; the model keeps its literal and
    does not round it. *)
#[warnings="-register-all"] Inductive json : Type :=
| JNull
| JBool (b : bool)
| JInt (z : Z)
| JFloat (lit : string)
| JStr (s : string)
| JArr (items : list json)
| JObj (members : list (string * json)).

(** [d[k]] lookup, [k in d] and [d[k] = v] on the members of a dict. *)
Fixpoint dict_get (k : string) (d : list (string * json)) : option json :=
  match d with
  | [] => None
  | (k', v) :: d' => if String.eqb k k' then Some v else dict_get k d'
  end.

Definition dict_has (k : string) (d : list (string * json)) : bool :=
  match dict_get k d with Some _ => true | None => false end.

(** Assignment keeps the position of a key that is already there and
    appends a new key at the end. *)
Fixpoint dict_set (k : string) (v : json) (d : list (string * json))
  : list (string * json) :=
  match d with
  | [] => [(k, v)]
  | (k', v') :: d' =>
      if String.eqb k k' then (k', v) :: d' else (k', v') :: dict_set k v d'
  end.

Definition dict_keys (d : list (string * json)) : list string := map fst d.

(** *** [json.dumps] *)

Definition hex_digit (n : N) : ascii :=
  if (n <? 10)%N then Str.chr (48 + n) else Str.chr (87 + n).

Definition escape_char (c : ascii) : string :=
  let n := Str.code c in
  if (n =? 34)%N then String Str.backslash (Str.str1 Str.dquote)
  else if (n =? 92)%N then String Str.backslash (Str.str1 Str.backslash)
  else if (n =? 10)%N then String Str.backslash "n"
  else if (n =? 13)%N then String Str.backslash "r"
  else if (n =? 9)%N then String Str.backslash "t"
  else if (n =? 8)%N then String Str.backslash "b"
  else if (n =? 12)%N then String Str.backslash "f"
  else if (n <? 32)%N then
    String Str.backslash
      ("u00" +:+ String (hex_digit (n / 16)) (Str.str1 (hex_digit (n mod 16))))
  else Str.str1 c.

Fixpoint escape (s : string) : string :=
  match s with
  | EmptyString => EmptyString
  | String c s' => escape_char c +:+ escape s'
  end.

(** A string literal with [ensure_ascii=False]. *)
Definition quote (s : string) : string :=
  String Str.dquote (escape s +:+ Str.str1 Str.dquote).

Definition dumps_atom (v : json) : string :=
  match v with
  | JNull => "null"
  | JBool true => "true"
  | JBool false => "false"
  | JInt z => pretty z
  | JFloat lit => lit
  | JStr s => quote s
  | _ => ""
  end.

(** [json.dumps(v, ensure_ascii=False)]: one line, separators ", " and ": ". *)
Fixpoint dumps (v : json) : string :=
  match v with
  | JArr items => "[" +:+ Str.join ", " (map dumps items) +:+ "]"
  | JObj members =>
      "{" +:+ Str.join ", "
                (map (fun kv => let '(k, x) := kv in quote k +:+ ": " +:+ dumps x)
                     members)
          +:+ "}"
  | _ => dumps_atom v
  end.

(** [json.dumps(v, ensure_ascii=False, indent=2)] at nesting [level]. *)
Definition newline_indent (level : nat) : string :=
  String Str.newline (Str.repeat_str (2 * level) " ").

Fixpoint dumps_indent (level : nat) (v : json) : string :=
  match v with
  | JArr [] => "[]"
  | JArr items =>
      "[" +:+ newline_indent (S level)
          +:+ Str.join ("," +:+ newline_indent (S level))
                       (map (dumps_indent (S level)) items)
          +:+ newline_indent level +:+ "]"
  | JObj [] => "{}"
  | JObj members =>
      "{" +:+ newline_indent (S level)
          +:+ Str.join ("," +:+ newline_indent (S level))
                (map (fun kv => let '(k, x) := kv in
                                quote k +:+ ": " +:+ dumps_indent (S level) x)
                     members)
          +:+ newline_indent level +:+ "}"
  | _ => dumps_atom v
  end.


(** *** [json.loads]

    The scanner of CPython's [json] module (strict mode): white space
    is space, tab, line feed and carriage return; a string may not
    hold a raw control character; a "\uXXXX" escape is stored as the
    UTF-8 bytes of its code point.  The interpreter's limits on the
    nesting depth and on the number of digits of an integer literal
    are left out. *)

Definition is_ws (c : ascii) : bool :=
  let n := Str.code c in
  ((n =? 32) || (n =? 9) || (n =? 10) || (n =? 13))%N.

Fixpoint skip_ws (s : string) : string :=
  match s with
  | String c s' => if is_ws c then skip_ws s' else s
  | EmptyString => s
  end.

Definition is_digit (c : ascii) : bool :=
  ((48 <=? Str.code c) && (Str.code c <=? 57))%N.

(** The longest prefix of digits, and the rest. *)
Fixpoint take_digits (s : string) : string * string :=
  match s with
  | String c s' =>
      if is_digit c then
        let '(ds, rest) := take_digits s' in (String c ds, rest)
      else ("", s)
  | EmptyString => ("", s)
  end.

Fixpoint digits_value (acc : N) (ds : string) : N :=
  match ds with
  | String c ds' => digits_value (10 * acc + (Str.code c - 48))%N ds'
  | EmptyString => acc
  end.

Definition hex_value (c : ascii) : option N :=
  let n := Str.code c in
  if ((48 <=? n) && (n <=? 57))%N then Some (n - 48)%N
  else if ((65 <=? n) && (n <=? 70))%N then Some (n - 55)%N
  else if ((97 <=? n) && (n <=? 102))%N then Some (n - 87)%N
  else None.

(** Four hexadecimal digits. *)
Definition take_hex4 (s : string) : option (N * string) :=
  match s with
  | String a (String b (String c (String d rest))) =>
      match hex_value a, hex_value b, hex_value c, hex_value d with
      | Some x, Some y, Some z, Some w =>
          Some (((x * 16 + y) * 16 + z) * 16 + w, rest)%N
      | _, _, _, _ => None
      end
  | _ => None
  end.

(** UTF-8 bytes of a code point; a lone surrogate gets the three bytes
    that [str.encode("utf-8")] refuses (see [utf8_encodable]). *)
Definition utf8_encode (cp : N) : string :=
  let cont (n : N) := Str.chr (128 + n mod 64) in
  (if cp <? 128 then Str.str1 (Str.chr cp)
   else if cp <? 2048 then
     String (Str.chr (192 + cp / 64)) (Str.str1 (cont cp))
   else if cp <? 65536 then
     String (Str.chr (224 + cp / 4096))
       (String (cont (cp / 64)) (Str.str1 (cont cp)))
   else
     String (Str.chr (240 + cp / 262144))
       (String (cont (cp / 4096))
          (String (cont (cp / 64)) (Str.str1 (cont cp)))))%N.

Definition is_high_surrogate (cp : N) : bool := ((55296 <=? cp) && (cp <=? 56319))%N.
Definition is_low_surrogate (cp : N) : bool := ((56320 <=? cp) && (cp <=? 57343))%N.

(** After "\u": the code point (joining a surrogate pair) and the rest. *)
Definition take_unicode_escape (s : string) : option (N * string) :=
  match take_hex4 s with
  | None => None
  | Some (c1, rest) =>
      if is_high_surrogate c1 then
        match rest with
        | String b (String u rest2) =>
            if Ascii.eqb b Str.backslash && Ascii.eqb u "u"%char then
              match take_hex4 rest2 with
              | None => None
              | Some (c2, rest3) =>
                  if is_low_surrogate c2
                  then Some (65536 + (c1 - 55296) * 1024 + (c2 - 56320), rest3)%N
                  else Some (c1, rest)
              end
            else Some (c1, rest)
        | _ => Some (c1, rest)
        end
      else Some (c1, rest)
  end.

Definition simple_escape (c : ascii) : option ascii :=
  let n := Str.code c in
  (if n =? 34 then Some Str.dquote
   else if n =? 92 then Some Str.backslash
   else if n =? 47 then Some "/"%char
   else if n =? 98 then Some (Str.chr 8)
   else if n =? 102 then Some (Str.chr 12)
   else if n =? 110 then Some Str.newline
   else if n =? 114 then Some Str.carriage
   else if n =? 116 then Some (Str.chr 9)
   else None)%N.

(** The body of a string literal, after its opening quote. *)
Fixpoint scan_string (fuel : nat) (s : string) : option (string * string) :=
  match fuel with
  | O => None
  | S fuel' =>
      match s with
      | EmptyString => None
      | String c s' =>
          if Ascii.eqb c Str.dquote then Some ("", s')
          else if Ascii.eqb c Str.backslash then
            match s' with
            | EmptyString => None
            | String e s'' =>
                if Ascii.eqb e "u"%char then
                  match take_unicode_escape s'' with
                  | None => None
                  | Some (cp, rest) =>
                      match scan_string fuel' rest with
                      | None => None
                      | Some (str, rest') => Some (utf8_encode cp +:+ str, rest')
                      end
                  end
                else
                  match simple_escape e with
                  | None => None
                  | Some x =>
                      match scan_string fuel' s'' with
                      | None => None
                      | Some (str, rest') => Some (String x str, rest')
                      end
                  end
            end
          else if (Str.code c <? 32)%N then None
          else
            match scan_string fuel' s' with
            | None => None
            | Some (str, rest') => Some (String c str, rest')
            end
      end
  end.

(** A number: an optional minus sign; "0" or a digit from 1 to 9 with
    any digits after it; then, if a digit follows it, a "." with
    digits; then, if digits follow it, "e" or "E" with an optional
    sign.  It is an [int] when there is neither fraction nor exponent. *)
Definition scan_number (s : string) : option (json * string) :=
  let '(neg, s1) :=
    match s with
    | String c s' => if Ascii.eqb c "-"%char then (true, s') else (false, s)
    | EmptyString => (false, s)
    end in
  let int_part :=
    match s1 with
    | String c s2 =>
        if Ascii.eqb c "0"%char then Some ("0", s2)
        else if is_digit c then Some (take_digits s1)
        else None
    | EmptyString => None
    end in
  match int_part with
  | None => None
  | Some (ds, r1) =>
      let '(frac, r2) :=
        match r1 with
        | String c r =>
            if Ascii.eqb c "."%char then
              let '(fd, r') := take_digits r in
              match fd with
              | EmptyString => ("", r1)
              | _ => ("." +:+ fd, r')
              end
            else ("", r1)
        | EmptyString => ("", r1)
        end in
      let '(expo, r3) :=
        match r2 with
        | String c r =>
            if Ascii.eqb c "e"%char || Ascii.eqb c "E"%char then
              let '(sign, r') :=
                match r with
                | String g r'' =>
                    if Ascii.eqb g "-"%char || Ascii.eqb g "+"%char
                    then (Str.str1 g, r'') else ("", r)
                | EmptyString => ("", r)
                end in
              let '(ed, r'') := take_digits r' in
              match ed with
              | EmptyString => ("", r2)
              | _ => (Str.str1 c +:+ sign +:+ ed, r'')
              end
            else ("", r2)
        | EmptyString => ("", r2)
        end in
      match frac, expo with
      | EmptyString, EmptyString =>
          let n := Z.of_N (digits_value 0 ds) in
          Some (JInt (if neg then - n else n), r3)
      | _, _ =>
          Some (JFloat ((if neg then "-" else "") +:+ ds +:+ frac +:+ expo), r3)
      end
  end.

Definition expect (c : ascii) (s : string) : option string :=
  match s with
  | String a s' => if Ascii.eqb a c then Some s' else None
  | EmptyString => None
  end.

Definition scan_constant (s : string) : option (json * string) :=
  if Str.starts_with "null" s then Some (JNull, Str.drop 4 s)
  else if Str.starts_with "true" s then Some (JBool true, Str.drop 4 s)
  else if Str.starts_with "false" s then Some (JBool false, Str.drop 5 s)
  else if Str.starts_with "NaN" s then Some (JFloat "NaN", Str.drop 3 s)
  else if Str.starts_with "Infinity" s then Some (JFloat "Infinity", Str.drop 8 s)
  else if Str.starts_with "-Infinity" s then Some (JFloat "-Infinity", Str.drop 9 s)
  else None.

(** [scan_once] with its array and object loops.  [scan_items] and
    [scan_members] start at the first element, after the white space
    that follows the opening bracket or a comma. *)
Fixpoint scan_value (fuel : nat) (s : string) : option (json * string) :=
  match fuel with
  | O => None
  | S fuel' =>
      match s with
      | EmptyString => None
      | String c s' =>
          if Ascii.eqb c Str.dquote then
            match scan_string (S (String.length s')) s' with
            | Some (str, rest) => Some (JStr str, rest)
            | None => None
            end
          else if Ascii.eqb c "["%char then
            match expect "]"%char (skip_ws s') with
            | Some rest => Some (JArr [], rest)
            | None =>
                match scan_items fuel' (skip_ws s') with
                | Some (items, rest) => Some (JArr items, rest)
                | None => None
                end
            end
          else if Ascii.eqb c "{"%char then
            match expect "}"%char (skip_ws s') with
            | Some rest => Some (JObj [], rest)
            | None =>
                match scan_members fuel' (skip_ws s') with
                | Some (pairs, rest) =>
                    Some (JObj (fold_left (fun d kv => dict_set (fst kv) (snd kv) d)
                                          pairs []), rest)
                | None => None
                end
            end
          else
            match scan_constant s with
            | Some r => Some r
            | None => scan_number s
            end
      end
  end
with scan_items (fuel : nat) (s : string) : option (list json * string) :=
  match fuel with
  | O => None
  | S fuel' =>
      match scan_value fuel' s with
      | None => None
      | Some (v, rest) =>
          let rest := skip_ws rest in
          match expect "]"%char rest with
          | Some rest' => Some ([v], rest')
          | None =>
              match expect ","%char rest with
              | None => None
              | Some rest' =>
                  match scan_items fuel' (skip_ws rest') with
                  | Some (vs, rest'') => Some (v :: vs, rest'')
                  | None => None
                  end
              end
          end
      end
  end
with scan_members (fuel : nat) (s : string)
  : option (list (string * json) * string) :=
  match fuel with
  | O => None
  | S fuel' =>
      match expect Str.dquote s with
      | None => None
      | Some s1 =>
          match scan_string (S (String.length s1)) s1 with
          | None => None
          | Some (k, s2) =>
              match expect ":"%char (skip_ws s2) with
              | None => None
              | Some s3 =>
                  match scan_value fuel' (skip_ws s3) with
                  | None => None
                  | Some (v, s4) =>
                      let s5 := skip_ws s4 in
                      match expect "}"%char s5 with
                      | Some rest => Some ([(k, v)], rest)
                      | None =>
                          match expect ","%char s5 with
                          | None => None
                          | Some s6 =>
                              match scan_members fuel' (skip_ws s6) with
                              | Some (kvs, rest) => Some ((k, v) :: kvs, rest)
                              | None => None
                              end
                          end
                      end
                  end
              end
          end
      end
  end.

(** [json.loads(text)] for a [str] argument. *)
Definition loads (text : string) : outcome json :=
  let s := skip_ws text in
  match scan_value (2 * String.length s + 2) s with
  | Some (v, rest) =>
      match skip_ws rest with
      | EmptyString => Ok v
      | _ => Raise JSONDecodeError
      end
  | None => Raise JSONDecodeError
  end.


(** *** What Python does with a parsed value *)

(** [bool(v)], as [if v:] tests it.  A float literal is false when its
    digits before the exponent are all zero (a literal that only
    rounds to zero counts as true here). *)
Fixpoint zero_mantissa (s : string) : bool :=
  match s with
  | EmptyString => true
  | String c s' =>
      if Ascii.eqb c "e"%char || Ascii.eqb c "E"%char then true
      else if Ascii.eqb c "0"%char || Ascii.eqb c "."%char || Ascii.eqb c "-"%char
      then zero_mantissa s'
      else false
  end.

Definition truthy (v : json) : bool :=
  match v with
  | JNull => false
  | JBool b => b
  | JInt z => negb (z =? 0)
  | JFloat lit => negb (zero_mantissa lit)
  | JStr s => negb (String.eqb s "")
  | JArr items => match items with [] => false | _ => true end
  | JObj members => match members with [] => false | _ => true end
  end.

Definition is_continuation (c : ascii) : bool :=
  ((128 <=? Str.code c) && (Str.code c <? 192))%N.

(** The code points of a [str], each as its UTF-8 bytes. *)
Fixpoint code_points_go (cur : option string) (s : string) : list string :=
  match s with
  | EmptyString => match cur with Some c => [String.rev c] | None => [] end
  | String a s' =>
      if is_continuation a then
        code_points_go (Some (String a (default "" cur))) s'
      else
        match cur with
        | Some c => String.rev c :: code_points_go (Some (Str.str1 a)) s'
        | None => code_points_go (Some (Str.str1 a)) s'
        end
  end.

Definition code_points (s : string) : list string := code_points_go None s.

(** A subscript is a [str] or an [int]. *)
Inductive key : Type :=
| KStr (s : string)
| KInt (i : Z).

(** [seq[i]] with Python's negative indices. *)
Definition index {A : Type} (l : list A) (i : Z) : option A :=
  let n := Z.of_nat (length l) in
  if (0 <=? i) && (i <? n) then l !! Z.to_nat i
  else if (- n <=? i) && (i <? 0) then l !! Z.to_nat (n + i)
  else None.

(** [v[k]]: a dict raises [KeyError] on a key it lacks, a list or a
    str raises [IndexError] out of range and [TypeError] on a str
    subscript, anything else is not subscriptable. *)
Definition subscript (v : json) (k : key) : outcome json :=
  match v, k with
  | JObj d, KStr s =>
      match dict_get s d with
      | Some x => Ok x
      | None => Raise (KeyError ("'" +:+ s +:+ "'"))
      end
  | JObj _, KInt i => Raise (KeyError (pretty i))
  | JArr l, KInt i =>
      match index l i with
      | Some x => Ok x
      | None => Raise (IndexError "list index out of range")
      end
  | JStr s, KInt i =>
      match index (code_points s) i with
      | Some c => Ok (JStr c)
      | None => Raise (IndexError "string index out of range")
      end
  | _, _ => Raise TypeError
  end.

(** [needle in v] for a str [needle]: key of a dict, element of a
    list, substring of a str; anything else is not iterable. *)
Definition is_str (needle : string) (v : json) : bool :=
  match v with
  | JStr s => String.eqb s needle
  | _ => false
  end.

Definition contains_str (needle : string) (v : json) : outcome bool :=
  match v with
  | JObj d => Ok (dict_has needle d)
  | JArr l => Ok (existsb (is_str needle) l)
  | JStr s => Ok (Str.contains needle s)
  | _ => Raise TypeError
  end.

(** [v[k] = x] for a str [k]: only a dict takes it. *)
Definition set_item (v : json) (k : string) (x : json) : outcome json :=
  match v with
  | JObj d => Ok (JObj (dict_set k x d))
  | _ => Raise TypeError
  end.

(** [json.loads(v)]: the argument has to be a [str]. *)
Definition loads_value (v : json) : outcome json :=
  match v with
  | JStr text => loads text
  | _ => Raise TypeError
  end.

(** [d.get(k, default)]: only a dict has [get]. *)
Definition get_default (v : json) (k : string) (dflt : json) : outcome json :=
  match v with
  | JObj d => Ok (default dflt (dict_get k d))
  | _ => Raise AttributeError
  end.

(** The objects a [for] loop over [v] visits. *)
Definition iterate (v : json) : outcome (list json) :=
  match v with
  | JArr l => Ok l
  | JObj d => Ok (map JStr (dict_keys d))
  | JStr s => Ok (map JStr (code_points s))
  | _ => Raise TypeError
  end.

(** The text can be written to a UTF-8 file: no lone surrogate (bytes
    ED A0..BF), which only a "\uD800".."\uDFFF" escape can bring in. *)
Fixpoint utf8_encodable (s : string) : bool :=
  match s with
  | EmptyString => true
  | String a s' =>
      match s' with
      | String b _ =>
          if ((Str.code a =? 237) && (160 <=? Str.code b))%N then false
          else utf8_encodable s'
      | EmptyString => true
      end
  end.

End Json.
Export Json.

(** ** The world outside the script *)

Module World.

(** What [requests.post] does with one request: it raises (connection
    error, timeout, ...) or it returns a response. *)
Inductive http_outcome : Type :=
| PostRaises (msg : string)
| Response (status : Z) (reason : string) (text : string).

Record request : Type := {
  req_url : string;
  req_headers : list (string * string);
  req_json : json;
  req_timeout : Z
}.

(** [rng], [uuids] and [net] are the answers the outside world will
    give to the successive calls of [random], [uuid.uuid4] and
    [requests.post]; the positions say how many were used. *)
Record world : Type := {
  env : gmap string string;
  fs : gmap string string;
  rng : nat -> nat;
  rng_pos : nat;
  uuids : nat -> string;
  uuid_pos : nat;
  net : nat -> http_outcome;
  sent : list request;
  stdout : list string
}.

Definition set_fs (f : gmap string string) (w : world) : world :=
  {| env := env w; fs := f; rng := rng w; rng_pos := rng_pos w;
     uuids := uuids w; uuid_pos := uuid_pos w; net := net w;
     sent := sent w; stdout := stdout w |}.

Definition set_rng_pos (n : nat) (w : world) : world :=
  {| env := env w; fs := fs w; rng := rng w; rng_pos := n;
     uuids := uuids w; uuid_pos := uuid_pos w; net := net w;
     sent := sent w; stdout := stdout w |}.

Definition set_uuid_pos (n : nat) (w : world) : world :=
  {| env := env w; fs := fs w; rng := rng w; rng_pos := rng_pos w;
     uuids := uuids w; uuid_pos := n; net := net w;
     sent := sent w; stdout := stdout w |}.

Definition set_sent (l : list request) (w : world) : world :=
  {| env := env w; fs := fs w; rng := rng w; rng_pos := rng_pos w;
     uuids := uuids w; uuid_pos := uuid_pos w; net := net w;
     sent := l; stdout := stdout w |}.

Definition set_stdout (l : list string) (w : world) : world :=
  {| env := env w; fs := fs w; rng := rng w; rng_pos := rng_pos w;
     uuids := uuids w; uuid_pos := uuid_pos w; net := net w;
     sent := sent w; stdout := l |}.

(** Code that runs in the world and may raise. *)
Definition M (A : Type) : Type := world -> outcome A * world.

Definition ret {A : Type} (a : A) : M A := fun w => (Ok a, w).

Definition raise {A : Type} (e : exn) : M A := fun w => (Raise e, w).

Definition out_of_fuel {A : Type} : M A := fun w => (Exhausted, w).

Definition bind {A B : Type} (m : M A) (k : A -> M B) : M B :=
  fun w =>
    match m w with
    | (Ok a, w') => k a w'
    | (Raise e, w') => (Raise e, w')
    | (Exhausted, w') => (Exhausted, w')
    end.

(** A pure computation that may raise. *)
Definition lift {A : Type} (r : outcome A) : M A := fun w => (r, w).

(** The body of a [try]: the exception, if any, is handed to the
    [except] clauses that follow. *)
Definition catch {A : Type} (m : M A) : M (A + exn) :=
  fun w =>
    match m w with
    | (Ok a, w') => (Ok (inl a), w')
    | (Raise e, w') => (Ok (inr e), w')
    | (Exhausted, w') => (Exhausted, w')
    end.

(** [print(line)]; the console is taken to accept any text. *)
Definition print (line : string) : M unit :=
  fun w => (Ok tt, set_stdout (stdout w ++ [line]) w).

(** [random.sample(population, k)]: [k] positions, never the same one
    twice, in the order the generator picks them. *)
Fixpoint pick {A : Type} (draw : nat -> nat) (pos : nat) (k : nat) (pool : list A)
  : list A :=
  match k with
  | O => []
  | S k' =>
      let i := (draw pos mod length pool)%nat in
      match pool !! i with
      | Some x => x :: pick draw (S pos) k' (delete i pool)
      | None => []
      end
  end.

Definition random_sample {A : Type} (population : list A) (k : Z) : M (list A) :=
  fun w =>
    if (k <? 0) || (Z.of_nat (length population) <? k) then (Raise ValueError, w)
    else
      (Ok (pick (rng w) (rng_pos w) (Z.to_nat k) population),
       set_rng_pos (rng_pos w + Z.to_nat k) w).

(** [str(uuid.uuid4())] *)
Definition uuid4_str : M string :=
  fun w => (Ok (uuids w (uuid_pos w)), set_uuid_pos (S (uuid_pos w)) w).

(** [requests.post(url, headers=..., json=..., timeout=...)] *)
Definition requests_post (rq : request) : M (Z * string * string) :=
  fun w =>
    let w' := set_sent (sent w ++ [rq]) w in
    match net w (length (sent w)) with
    | PostRaises msg => (Raise (RequestException msg), w')
    | Response status reason text => (Ok (status, reason, text), w')
    end.

(** [open(path, 'r', encoding='utf-8')] and [f.readlines()] *)
Definition read_lines (path : string) : M (list string) :=
  fun w =>
    match fs w !! path with
    | Some content => (Ok (Str.readlines content), w)
    | None => (Raise FileNotFoundError, w)
    end.

(** [open(path, 'w', encoding='utf-8')]: the file is created or emptied. *)
Definition open_write (path : string) : M unit :=
  fun w => (Ok tt, set_fs (<[path := ""]> (fs w)) w).

(** [f.write(text)] followed by [f.flush()]. *)
Definition write_flush (path : string) (text : string) : M unit :=
  fun w =>
    if utf8_encodable text then
      (Ok tt, set_fs (<[path := default "" (fs w !! path) +:+ text]> (fs w)) w)
    else (Raise UnicodeEncodeError, w).

End World.
Export World.

Declare Scope py_scope.
Delimit Scope py_scope with py.
Notation "'let*' x ':=' m 'in' k" := (bind m (fun x => k))
  (at level 10, x name, m at level 100, k at level 200) : py_scope.
Notation "m ';;' k" := (bind m (fun _ => k))
  (at level 100, k at level 200, right associativity) : py_scope.
Local Open Scope py_scope.

(** ** The script *)

(** Module-level configuration, read from the environment. *)
Definition API_URL (w : world) : string :=
  default "https://your-llm-provider.com/v1/chat/completions" (env w !! "LLM_API_URL").

Definition API_KEY (w : world) : option string := env w !! "LLM_API_KEY".

Definition MODEL_NAME (w : world) : string :=
  default "the-model-you-want-to-use" (env w !! "LLM_MODEL_NAME").

(** The two-character text that the script spells ['\\n']: a backslash
    and the letter n. *)
Definition backslash_n : string := String Str.backslash "n".

Definition nl : string := Str.str1 Str.newline.

(** [response.raise_for_status()] *)
Definition raise_for_status (url : string) (response : Z * string * string) : M unit :=
  let '(status, reason, _) := response in
  if (400 <=? status) && (status <? 500) then
    raise (RequestException
             (pretty status +:+ " Client Error: " +:+ reason +:+ " for url: " +:+ url))
  else if (500 <=? status) && (status <? 600) then
    raise (RequestException
             (pretty status +:+ " Server Error: " +:+ reason +:+ " for url: " +:+ url))
  else ret tt.

(** [response.json()]: a body that does not parse raises
    [requests.exceptions.JSONDecodeError], a [RequestException]. *)
Definition response_json (response : Z * string * string) : M json :=
  let '(_, _, text) := response in
  match loads text with
  | Ok v => ret v
  | _ => raise (RequestException "JSONDecodeError")
  end.

(** [response_json['choices'][0]['message']['content']] *)
Definition completion_of (response_json : json) : outcome json :=
  match subscript response_json (KStr "choices") with
  | Ok choices =>
      match subscript choices (KInt 0) with
      | Ok choice =>
          match subscript choice (KStr "message") with
          | Ok message => subscript message (KStr "content")
          | other => other
          end
      | other => other
      end
  | other => other
  end.

(** [bool(API_KEY)]: the variable is set and not empty. *)
Definition has_text (v : option string) : bool :=
  match v with
  | Some s => negb (String.eqb s "")
  | None => false
  end.

(** The first [except] clause of [call_llm]. *)
Definition request_failed (e : string) : M json :=
  print ("错误: API 请求失败: " +:+ e) ;; ret JNull.

(** The second [except] clause of [call_llm]; [response] is bound when
    a [KeyError] or an [IndexError] gets here. *)
Definition shape_failed (e : string) (response : Z * string * string) : M json :=
  print ("错误: 解析 API 响应失败，响应结构可能不符合预期: " +:+ e) ;;
  print ("原始响应: " +:+ snd response) ;;
  ret JNull.

(** The lines of the [try] that follow [requests.post]. *)
Definition extract_completion (url : string) (response : Z * string * string) : M json :=
  raise_for_status url response ;;
  let* response_json := response_json response in
  let* content := lift (completion_of response_json) in
  ret content.

(** The request of [call_llm]: [headers], [payload] and the arguments of
    [requests.post]. *)
Definition chat_request (w : world) (messages : json) : request :=
  let headers :=
    [("Content-Type", "application/json");
     ("Authorization", "Bearer " +:+ default "" (API_KEY w))] in
  let payload :=
    JObj [("model", JStr (MODEL_NAME w));
          ("messages", messages);
          ("max_tokens", JInt 1024);
          ("temperature", JFloat "0.7")] in
  {| req_url := API_URL w; req_headers := headers;
     req_json := payload; req_timeout := 120 |}.

(** [call_llm(messages)].  The result is the Python object the function
    returns: [JNull] is [None].  The [try] is split at the point where
    [response] gets bound, so that the second [except] clause can print
    [response.text]; both parts have the same [except] clauses. *)
Definition call_llm (messages : json) : M json :=
  fun w =>
    if negb (has_text (API_KEY w)) then
      (print "错误：缺少环境变量 LLM_API_KEY，请安全配置后再运行。" ;; ret JNull) w
    else
      (let* posted := catch (requests_post (chat_request w messages)) in
       match posted with
       | inr (RequestException e) => request_failed e
       | inr e => raise e
       | inl response =>
           let* extracted := catch (extract_completion (API_URL w) response) in
           match extracted with
           | inl content => ret content
           | inr (RequestException e) => request_failed e
           | inr (KeyError e) => shape_failed e response
           | inr (IndexError e) => shape_failed e response
           | inr e => raise e
           end
       end) w.

(** The loop body of [load_seed_examples]. *)
Fixpoint parse_selected (selected_lines : list string) (seeds : list json)
  : outcome (list json) :=
  match selected_lines with
  | [] => Ok seeds
  | line :: rest =>
      if negb (Str.is_blank line) then
        match loads line with
        | Ok v => parse_selected rest (seeds ++ [v])
        | Raise e => Raise e
        | Exhausted => Exhausted
        end
      else parse_selected rest seeds
  end.

(** [load_seed_examples(filepath, num_examples)] *)
Definition load_seed_examples (filepath : string) (num_examples : Z) : M (list json) :=
  let* loaded :=
    catch (let* lines := read_lines filepath in
           let* selected_lines :=
             random_sample lines (Z.min (Z.of_nat (length lines)) num_examples) in
           lift (parse_selected selected_lines [])) in
  match loaded with
  | inl seeds => ret seeds
  | inr FileNotFoundError =>
      print ("错误: 种子文件 '" +:+ filepath +:+ "' 未找到。") ;; ret []
  | inr JSONDecodeError =>
      print ("错误: 种子文件 '" +:+ filepath +:+ "' 格式不正确，无法解析为 JSON。") ;; ret []
  | inr e => raise e
  end.

(** The comprehension
    [[msg for msg in example.get("messages", []) if msg.get("role") == "user"]]. *)
Fixpoint user_messages (msgs : list json) : outcome (list json) :=
  match msgs with
  | [] => Ok []
  | msg :: rest =>
      match get_default msg "role" JNull with
      | Ok role =>
          match user_messages rest with
          | Ok kept => Ok (if is_str "user" role then msg :: kept else kept)
          | other => other
          end
      | Raise e => Raise e
      | Exhausted => Exhausted
      end
  end.

Definition simplified_example (example : json) : outcome json :=
  match get_default example "messages" (JArr []) with
  | Ok messages =>
      match iterate messages with
      | Ok msgs =>
          match user_messages msgs with
          | Ok kept =>
              match get_default example "condition" (JArr []) with
              | Ok condition =>
                  Ok (JObj [("messages", JArr kept); ("condition", condition)])
              | other => other
              end
          | Raise e => Raise e
          | Exhausted => Exhausted
          end
      | Raise e => Raise e
      | Exhausted => Exhausted
      end
  | other => other
  end.

(** The [for] loop of [build_system_prompt]; [i] counts from 0. *)
Fixpoint add_examples (i : nat) (seed_examples : list json) (prompt : string)
  : outcome string :=
  match seed_examples with
  | [] => Ok prompt
  | example :: rest =>
      match simplified_example example with
      | Ok simplified =>
          add_examples (S i) rest
            (prompt +:+ "--- 示例 " +:+ pretty (S i) +:+ " ---" +:+ nl
                    +:+ "```json" +:+ nl
                    +:+ dumps_indent 0 simplified
                    +:+ nl +:+ "```" +:+ nl +:+ nl)
      | Raise e => Raise e
      | Exhausted => Exhausted
      end
  end.

(** [build_system_prompt(seed_examples, constraint_list)] *)
Definition build_system_prompt (seed_examples : list json) (constraint_list : list string)
  : outcome string :=
  let prompt :=
    "你是一名资深的测试数据生成专家，擅长为大语言模型设计高质量、包含多种约束的测试用例。"
    +:+ "你的任务是根据用户的需求，生成符合特定 JSON 格式的测试数据。" +:+ nl +:+ nl in
  let prompt :=
    prompt +:+ "--- 以下是若干个高质量的示例，请模仿它们的结构与规范 ---" +:+ nl +:+ nl in
  match add_examples 0 seed_examples prompt with
  | Ok prompt =>
      let prompt := prompt +:+ "--- 约束类型列表 ---" +:+ nl in
      let prompt :=
        prompt +:+ "在生成 `condition` 字段时，`constraint_type` 必须从如下列表中选择：" +:+ nl in
      let prompt := prompt +:+ Str.join ", " constraint_list +:+ nl +:+ nl in
      let prompt := prompt +:+ "--- 任务要求 ---" +:+ nl in
      Ok (prompt
          +:+ "现在请根据我之后的要求，生成一个全新的、内容不重复但结构与示例一致的测试用例。"
          +:+ "*你必须只输出一个完整、可被直接解析的 JSON 对象，不要包含解释性文字或 ```json 标记*")
  | other => other
  end.

(** The constraint vocabulary of [generate_synthetic_data]. *)
Definition all_constraints : list string :=
  ["语义约束"; "格式约束"; "风格约束"; "数值约束"; "长度约束"; "中文约束";
   "英文约束"; "其他语言约束"; "示例约束"; "专业术语约束"; "情感倾向约束";
   "原文约束"; "符号约束"; "词汇约束"; "集合约束"; "文本结构约束";
   "时间约束"; "主题约束"; "结构约束"; "流程约束"; "边界约束"; "其他约束"].

Definition user_prompt (constraint_a constraint_b : string) : string :=
  "请生成一个新的测试用例，需同时包含 '" +:+ constraint_a +:+ "' 和 '"
  +:+ constraint_b +:+ "' 两种约束。"
  +:+ "确保问题的复杂度与专业性，并使其具有可验证性。".

Definition chat_messages (system_prompt user_prompt : string) : json :=
  JArr [JObj [("role", JStr "system"); ("content", JStr system_prompt)];
        JObj [("role", JStr "user"); ("content", JStr user_prompt)]].

(** The text an f-string shows for the model's answer; only a [str]
    reaches the place that prints it. *)
Definition shown (v : json) : string :=
  match v with
  | JStr s => s
  | other => dumps other
  end.

(** The test ["messages" in new_data and "condition" in new_data]. *)
Definition has_required_keys (new_data : json) : outcome bool :=
  match contains_str "messages" new_data with
  | Ok true => contains_str "condition" new_data
  | other => other
  end.

(** What one [f_out.write] of the loop puts in the file: the record on
    one line, then a backslash and an n. *)
Definition chunk (members : list (string * json)) : string :=
  dumps (JObj members) +:+ backslash_n.

(** The lines of the [try] block: parse, check the two keys, tag with a
    fresh id, write, count.  The result is the new value of
    [generated_data_count]. *)
Definition validate_and_persist (output_path : string) (llm_response_str : json)
    (generated_data_count : Z) : M Z :=
  let* new_data := lift (loads_value llm_response_str) in
  let* complete := lift (has_required_keys new_data) in
  if complete then
    let* fresh := uuid4_str in
    let* new_data := lift (set_item new_data "id" (JStr fresh)) in
    write_flush output_path (dumps new_data +:+ backslash_n) ;;
    let generated_data_count := generated_data_count + 1 in
    print ("成功：第 " +:+ pretty generated_data_count +:+ " 条数据已生成并保存。") ;;
    ret generated_data_count
  else
    print "警告：LLM 返回的 JSON 结构不完整，缺少 'messages' 或 'condition' 字段，已跳过。" ;;
    ret generated_data_count.

(** [if llm_response_str: try: ... except json.JSONDecodeError: ... else: ...] *)
Definition handle_response (output_path : string) (llm_response_str : json)
    (generated_data_count : Z) : M Z :=
  if truthy llm_response_str then
    let* tried := catch (validate_and_persist output_path llm_response_str
                                              generated_data_count) in
    match tried with
    | inl count => ret count
    | inr JSONDecodeError =>
        print "警告：LLM 返回内容不是有效的 JSON 格式，已跳过。" ;;
        print ("收到的无效内容: " +:+ shown llm_response_str) ;;
        ret generated_data_count
    | inr e => raise e
    end
  else
    print "警告：调用 LLM 失败，无法获取响应，已跳过本次生成。" ;;
    ret generated_data_count.

(** The loop body once the two constraints are drawn: build the user
    prompt and the messages, call the model, handle its answer. *)
Definition request_record (system_prompt output_path : string)
    (constraint_a constraint_b : string) (generated_data_count : Z) : M Z :=
  let user_prompt := user_prompt constraint_a constraint_b in
  let messages := chat_messages system_prompt user_prompt in
  let* llm_response_str := call_llm messages in
  handle_response output_path llm_response_str generated_data_count.

(** The f-string printed at the top of the loop body. *)
Definition progress_line (generated_data_count num_to_generate : Z) : string :=
  backslash_n +:+ "--- 正在生成第 " +:+ pretty (generated_data_count + 1) +:+ "/"
  +:+ pretty num_to_generate +:+ " 条数据 ---".

(** One pass through the body of the [while] loop. *)
Definition attempt (system_prompt output_path : string) (num_to_generate : Z)
    (generated_data_count : Z) : M Z :=
  print (progress_line generated_data_count num_to_generate) ;;
  let* pair := random_sample all_constraints 2 in
  match pair with
  | [constraint_a; constraint_b] =>
      request_record system_prompt output_path constraint_a constraint_b
                     generated_data_count
  | _ => raise ValueError
  end.

(** [while generated_data_count < num_to_generate: ...], with a bound
    on the number of passes; the result is the final counter. *)
Fixpoint generation_loop (fuel : nat) (system_prompt output_path : string)
    (num_to_generate : Z) (generated_data_count : Z) : M Z :=
  if generated_data_count <? num_to_generate then
    match fuel with
    | O => out_of_fuel
    | S fuel' =>
        let* count := attempt system_prompt output_path num_to_generate
                              generated_data_count in
        generation_loop fuel' system_prompt output_path num_to_generate count
    end
  else ret generated_data_count.

(** [generate_synthetic_data(original_data_path, output_path, num_to_generate)];
    [fuel] bounds the passes of its loop. *)
Definition generate_synthetic_data (fuel : nat) (original_data_path output_path : string)
    (num_to_generate : Z) : M unit :=
  let* seed_examples := load_seed_examples original_data_path 3 in
  match seed_examples with
  | [] => print "无法加载种子示例，流程终止。" ;; ret tt
  | _ =>
      let* system_prompt := lift (build_system_prompt seed_examples all_constraints) in
      let generated_data_count := 0 in
      open_write output_path ;;
      let* generated_data_count :=
        generation_loop fuel system_prompt output_path num_to_generate
                        generated_data_count in
      print (backslash_n +:+ "处理完成，共生成 " +:+ pretty generated_data_count
             +:+ " 条合成数据，已保存至 '" +:+ output_path +:+ "'。") ;;
      ret tt
  end.



(** * Vocabulary of the properties *)

(** [m] never changes the part [f] of the world. *)
Definition keeps {X A : Type} (f : world -> X) (m : M A) : Prop :=
  forall w, f (snd (m w)) = f w.

(** The file system after one [write_flush] of [text] to [path], and
    after a series of them. *)
Definition appended (path text : string) (files : gmap string string)
  : gmap string string :=
  <[path := default "" (files !! path) +:+ text]> files.

Definition after_writes (path : string) (texts : list string)
    (files : gmap string string) : gmap string string :=
  fold_left (fun files text => appended path text files) texts files.

(** The lines that [load_seed_examples] draws from a file of [content],
    given the generator of the world. *)
Definition selected_lines (w : world) (content : string) (num_examples : Z)
  : list string :=
  let lines := Str.readlines content in
  pick (rng w) (rng_pos w) (Z.to_nat (Z.min (Z.of_nat (length lines)) num_examples))
       lines.

(** The seed records of a file: its lines that are not blank. *)
Definition seed_lines (content : string) : list string :=
  filter (fun line => Str.is_blank line = false) (Str.readlines content).



(** The record stored for the parsed answer [members] under the [i]-th
    id of the world. *)
Definition tagged (ids : nat -> string) (rec : nat * list (string * json))
  : list (string * json) :=
  dict_set "id" (JStr (ids (fst rec))) (snd rec).

(** What handling one answer does: nothing is written and the counter
    stays, or the answer is the text of an object with both keys, which
    is written with the next id, and the counter grows by one. *)
Definition handled (output_path : string) (llm_response_str : json) (count : Z)
    (w : world) (r : outcome Z) (w' : world) : Prop :=
  (fs w' = fs w
   /\ (uuid_pos w' = uuid_pos w \/ uuid_pos w' = S (uuid_pos w))
   /\ (forall count', r = Ok count' -> count' = count))
  \/ exists text members,
       llm_response_str = JStr text
       /\ loads text = Ok (JObj members)
       /\ dict_has "messages" members = true
       /\ dict_has "condition" members = true
       /\ r = Ok (count + 1)
       /\ uuid_pos w' = S (uuid_pos w)
       /\ fs w' = appended output_path
                            (chunk (tagged (uuids w) (uuid_pos w, members))) (fs w).


(** What a run of the loop from counter [c] in world [w] has written when
    it ends with [r] in world [w']: the records [recs], each with the
    position of its id, in the order of writing. *)
Definition loop_trace (out : string) (n c : Z) (w : world) (r : outcome Z)
    (w' : world) (recs : list (nat * list (string * json))) : Prop :=
  fs w' = after_writes out ((fun rec => chunk (tagged (uuids w) rec)) <$> recs) (fs w)
  /\ Forall (fun rec => (uuid_pos w <= fst rec < uuid_pos w')%nat
                        /\ dict_has "messages" (snd rec) = true
                        /\ dict_has "condition" (snd rec) = true) recs
  /\ NoDup (fst <$> recs)
  /\ (forall c', r = Ok c' -> c' = c + Z.of_nat (length recs) /\ (c' <? n) = false).



(** The lines [load_seed_examples] prints when it gives up. *)
Definition not_found_line (filepath : string) : string :=
  "错误: 种子文件 '" +:+ filepath +:+ "' 未找到。".

Definition bad_format_line (filepath : string) : string :=
  "错误: 种子文件 '" +:+ filepath +:+ "' 格式不正确，无法解析为 JSON。".

(** The line [call_llm] prints when the credential is missing. *)
Definition missing_key_line : string :=
  "错误：缺少环境变量 LLM_API_KEY，请安全配置后再运行。".

(** ** Worlds to run the script in *)

Module Mock.

Definition q (s : string) : string :=
  Str.str1 Str.dquote +:+ s +:+ Str.str1 Str.dquote.

(** [{"messages": [], "condition": []}] *)
Definition record_text : string :=
  "{" +:+ q "messages" +:+ ": [], " +:+ q "condition" +:+ ": []}".

(** [{"messages": [{"role": "user", "content": "hi"}], "condition": []}] *)
Definition seed_text : string :=
  "{" +:+ q "messages" +:+ ": [{" +:+ q "role" +:+ ": " +:+ q "user" +:+ ", "
      +:+ q "content" +:+ ": " +:+ q "hi" +:+ "}], " +:+ q "condition" +:+ ": []}".

(** The body of a chat completion whose text is [text]. *)
Definition api_body (text : string) : string :=
  dumps (JObj [("choices", JArr [JObj [("message", JObj [("content", JStr text)])]])]).

(** [{"choices": null}] *)
Definition null_choices_body : string := "{" +:+ q "choices" +:+ ": null}".

Definition fresh_id (n : nat) : string := "00000000-0000-4000-8000-" +:+ pretty n.

(** A world with the seed file "seeds.jsonl". *)
Definition world_with (key : option string) (seed_content : string)
    (answers : nat -> http_outcome) (draws : nat -> nat) : world :=
  {| env := match key with
            | Some k => {["LLM_API_KEY" := k]}
            | None => ∅
            end;
     fs := {["seeds.jsonl" := seed_content]};
     rng := draws; rng_pos := 0;
     uuids := fresh_id; uuid_pos := 0;
     net := answers; sent := []; stdout := [] |}.

Definition always (text : string) : nat -> http_outcome :=
  fun _ => Response 200 "OK" (api_body text).

(** The client answers well every time. *)
Definition good_world : world :=
  world_with (Some "sk-test") (seed_text +:+ nl) (always record_text) (fun n => n).

(** The same without the credential. *)
Definition no_key_world : world :=
  world_with None (seed_text +:+ nl) (always record_text) (fun n => n).


(** The endpoint answers 200 with [{"choices": null}]. *)
Definition null_choices_world : world :=
  world_with (Some "sk-test") (seed_text +:+ nl)
    (fun _ => Response 200 "OK" null_choices_body) (fun n => n).

(** A seed file that starts with an empty line; the generator picks
    position 0 every time. *)
Definition blank_first_world : world :=
  world_with (Some "sk-test") (nl +:+ seed_text +:+ nl) (always record_text)
             (fun _ => O).

(** Three good seed lines, then a line that is not JSON; the
    generator picks position 0 every time. *)
Definition bad_last_world : world :=
  world_with (Some "sk-test")
    (seed_text +:+ nl +:+ seed_text +:+ nl +:+ seed_text +:+ nl +:+ "not json" +:+ nl)
    (always record_text) (fun _ => O).

(** Two lines, the second one not JSON. *)
Definition bad_seed_world : world :=
  world_with (Some "sk-test") (seed_text +:+ nl +:+ "not json" +:+ nl)
             (always record_text) (fun n => n).

End Mock.

(** * Vocabulary of the further properties *)


Definition shape_failed_line (e : string) : string :=
  "错误: 解析 API 响应失败，响应结构可能不符合预期: " +:+ e.

Definition raw_response_line (body : string) : string := "原始响应: " +:+ body.


(** The world after [call_llm] has sent its request for [messages]. *)
Definition after_request (w : world) (messages : json) : world :=
  set_sent (sent w ++ [chat_request w messages]) w.

(** The line [generate_synthetic_data] prints when it has no seeds. *)
Definition no_seeds_line : string := "无法加载种子示例，流程终止。".

(** A Python [dict], and a message whose role is ["user"]. *)
Definition is_dict (v : json) : bool :=
  match v with
  | JObj _ => true
  | _ => false
  end.

Definition has_user_role (msg : json) : bool :=
  match msg with
  | JObj d => is_str "user" (default JNull (dict_get "role" d))
  | _ => false
  end.

(** What remains of a seed in the prompt: its user messages and its
    condition. *)
Definition projection (d : list (string * json)) (msgs : list json) : json :=
  JObj [("messages", JArr (List.filter has_user_role msgs));
        ("condition", default (JArr []) (dict_get "condition" d))].

(** A value that a [for] loop cannot run over. *)
Definition not_iterable (v : json) : bool :=
  match v with
  | JNull | JBool _ | JInt _ | JFloat _ => true
  | _ => false
  end.

(** The three parts of the system prompt: what comes before the
    examples, the block of the [i]-th example (counted from 0), what
    comes after them. *)
Definition prompt_header : string :=
  "你是一名资深的测试数据生成专家，擅长为大语言模型设计高质量、包含多种约束的测试用例。"
  +:+ "你的任务是根据用户的需求，生成符合特定 JSON 格式的测试数据。" +:+ nl +:+ nl
  +:+ "--- 以下是若干个高质量的示例，请模仿它们的结构与规范 ---" +:+ nl +:+ nl.

Definition example_block (i : nat) (simplified : json) : string :=
  "--- 示例 " +:+ pretty (S i) +:+ " ---" +:+ nl
  +:+ "```json" +:+ nl
  +:+ dumps_indent 0 simplified
  +:+ nl +:+ "```" +:+ nl +:+ nl.

Definition prompt_footer (constraint_list : list string) : string :=
  "--- 约束类型列表 ---" +:+ nl
  +:+ "在生成 `condition` 字段时，`constraint_type` 必须从如下列表中选择：" +:+ nl
  +:+ Str.join ", " constraint_list +:+ nl +:+ nl
  +:+ "--- 任务要求 ---" +:+ nl
  +:+ "现在请根据我之后的要求，生成一个全新的、内容不重复但结构与示例一致的测试用例。"
  +:+ "*你必须只输出一个完整、可被直接解析的 JSON 对象，不要包含解释性文字或 ```json 标记*".

(** The line printed at the end of a run that got through its loop. *)
Definition summary_line (count : Z) (output_path : string) : string :=
  backslash_n +:+ "处理完成，共生成 " +:+ pretty count
  +:+ " 条合成数据，已保存至 '" +:+ output_path +:+ "'。".

(** A request of the generation loop: the system prompt, and a user
    instruction that names two different labels of the vocabulary. *)
Definition loop_request (w : world) (system_prompt : string) (rq : request) : Prop :=
  exists a b,
    a <> b /\ a ∈ all_constraints /\ b ∈ all_constraints
    /\ rq = chat_request w (chat_messages system_prompt (user_prompt a b)).

(** The lines the loop prints when it skips an answer. *)
Definition call_failed_line : string :=
  "警告：调用 LLM 失败，无法获取响应，已跳过本次生成。".

Definition not_json_line : string :=
  "警告：LLM 返回内容不是有效的 JSON 格式，已跳过。".

Definition invalid_content_line (text : string) : string :=
  "收到的无效内容: " +:+ text.

Definition incomplete_line : string :=
  "警告：LLM 返回的 JSON 结构不完整，缺少 'messages' 或 'condition' 字段，已跳过。".

(** ** More worlds and values to run the script on *)

Module Cases.


(** The endpoint answers 200 with the body [{}]. *)
Definition empty_object_world : world :=
  Mock.world_with (Some "sk-test") (Mock.seed_text +:+ nl)
    (fun _ => Response 200 "OK" "{}") (fun n => n).

(** A seed file with blank lines only. *)
Definition blank_seed_world : world :=
  Mock.world_with (Some "sk-test") (nl +:+ "  " +:+ nl) (Mock.always Mock.record_text)
                  (fun n => n).

(** A seed with a system, a user and an assistant message:
    [{"messages": [{"role": "system", "content": "s"}, {"role": "user",
    "content": "u"}, {"role": "assistant", "content": "a"}],
    "condition": [1], "id": "x"}] *)
Definition rich_seed : json :=
  JObj [("messages",
         JArr [JObj [("role", JStr "system"); ("content", JStr "s")];
               JObj [("role", JStr "user"); ("content", JStr "u")];
               JObj [("role", JStr "assistant"); ("content", JStr "a")]]);
        ("condition", JArr [JInt 1]);
        ("id", JStr "x")].

(** A seed file whose only line is the number 5. *)
Definition number_seed_world : world :=
  Mock.world_with (Some "sk-test") ("5" +:+ nl) (Mock.always Mock.record_text)
                  (fun n => n).

(** The text of the JSON list [["messages", "condition"]]. *)
Definition list_text : string :=
  "[" +:+ Mock.q "messages" +:+ ", " +:+ Mock.q "condition" +:+ "]".

End Cases.

(** * Facts about the embedding *)

Arguments dumps : simpl never.
Arguments dumps_indent : simpl never.
Arguments loads : simpl never.
Arguments utf8_encodable : simpl never.
Arguments Str.readlines : simpl never.
Arguments Str.is_blank : simpl never.
Arguments chunk : simpl never.
Arguments after_writes : simpl never.
Arguments tagged : simpl never.

(** ** Strings and dicts *)

Lemma string_app_cons (a : ascii) (s t : string) :
  String a s +:+ t = String a (s +:+ t).
Proof. reflexivity. Qed.

Lemma string_app_nil_r (s : string) : s +:+ "" = s.
Proof.
  induction s as [| a s IH]; [done |].
  by rewrite string_app_cons, IH.
Qed.

Lemma string_app_assoc (s t u : string) : (s +:+ t) +:+ u = s +:+ (t +:+ u).
Proof.
  induction s as [| a s IH]; [done |].
  by rewrite !string_app_cons, IH.
Qed.

Lemma dict_get_set_eq k v d : dict_get k (dict_set k v d) = Some v.
Proof.
  induction d as [| [k' v'] d IH]; simpl.
  - by rewrite String.eqb_refl.
  - destruct (String.eqb k k') eqn:E; simpl; rewrite E; done.
Qed.

Lemma dict_get_set_ne k k' v d :
  k' <> k -> dict_get k' (dict_set k v d) = dict_get k' d.
Proof.
  intros Hne. induction d as [| [k0 v0] d IH]; simpl.
  - destruct (String.eqb k' k) eqn:E; [| done].
    apply String.eqb_eq in E. done.
  - destruct (String.eqb k k0) eqn:E; simpl.
    + apply String.eqb_eq in E as <-.
      destruct (String.eqb k' k) eqn:E'; [| done].
      apply String.eqb_eq in E'. done.
    + by rewrite IH.
Qed.


Lemma dict_keys_set k v d :
  dict_keys (dict_set k v d)
  = if dict_has k d then dict_keys d else (dict_keys d ++ [k])%list.
Proof.
  unfold dict_has, dict_keys. induction d as [| [k' v'] d IH]; simpl; [done |].
  destruct (String.eqb k k') eqn:E; simpl; [done |].
  rewrite IH. by destruct (dict_get k d).
Qed.

(** [json.loads] returns a value or raises [JSONDecodeError]. *)
Lemma loads_cases text : (exists v, loads text = Ok v) \/ loads text = Raise JSONDecodeError.
Proof.
  unfold loads.
  destruct (scan_value _ _) as [[v rest] |]; [| by right].
  destruct (skip_ws rest); [left; eauto | by right].
Qed.

(** ** Code that leaves a part of the world alone *)

Lemma keeps_ret {X A : Type} (f : world -> X) (a : A) : keeps f (ret a).
Proof. intros w. reflexivity. Qed.

Lemma keeps_raise {X A : Type} (f : world -> X) (e : exn) : keeps f (@raise A e).
Proof. intros w. reflexivity. Qed.

Lemma keeps_out_of_fuel {X A : Type} (f : world -> X) : keeps f (@out_of_fuel A).
Proof. intros w. reflexivity. Qed.

Lemma keeps_lift {X A : Type} (f : world -> X) (r : outcome A) : keeps f (lift r).
Proof. intros w. reflexivity. Qed.

Lemma keeps_bind {X A B : Type} (f : world -> X) (m : M A) (k : A -> M B) :
  keeps f m -> (forall a, keeps f (k a)) -> keeps f (bind m k).
Proof.
  intros Hm Hk w. unfold bind.
  specialize (Hm w). destruct (m w) as [[a | e |] w1]; simpl in *; try done.
  by rewrite Hk.
Qed.

Lemma keeps_catch {X A : Type} (f : world -> X) (m : M A) :
  keeps f m -> keeps f (catch m).
Proof.
  intros Hm w. unfold catch.
  specialize (Hm w). by destruct (m w) as [[a | e |] w1].
Qed.

Ltac keeps_step :=
  lazymatch goal with
  | |- keeps _ (bind _ _) => apply keeps_bind; [ | intros ? ]
  | |- keeps _ (catch _) => apply keeps_catch
  | |- keeps _ (ret _) => apply keeps_ret
  | |- keeps _ (raise _) => apply keeps_raise
  | |- keeps _ (lift _) => apply keeps_lift
  | |- keeps _ out_of_fuel => apply keeps_out_of_fuel
  | |- keeps _ (match ?x with _ => _ end) => destruct x
  end.

(** A primitive keeps a field that its definition does not set. *)
Ltac keeps_prim :=
  let w := fresh "w" in
  intros w;
  cbv [print random_sample uuid4_str requests_post read_lines open_write write_flush];
  repeat case_match; reflexivity.

Create HintDb keeps.

Ltac keeps_auto := repeat keeps_step; try (by auto with keeps); try keeps_prim.

(** Back from a goal about one world to a goal about the code. *)
Ltac keeps_at :=
  lazymatch goal with
  | |- ?f (snd (?m ?w)) = ?f ?w =>
      let H := fresh in enough (keeps f m) as H by (exact (H w))
  end.

Ltac call_llm_keeps :=
  let w := fresh "w" in
  intros w; unfold call_llm; destruct (negb (has_text (API_KEY w)));
  keeps_at;
  unfold request_failed, shape_failed, extract_completion, raise_for_status,
    response_json;
  keeps_auto.

Lemma call_llm_keeps_fs messages : keeps fs (call_llm messages).
Proof. call_llm_keeps. Qed.

Lemma call_llm_keeps_env messages : keeps env (call_llm messages).
Proof. call_llm_keeps. Qed.

Lemma call_llm_keeps_net messages : keeps net (call_llm messages).
Proof. call_llm_keeps. Qed.

Lemma call_llm_keeps_uuids messages : keeps uuids (call_llm messages).
Proof. call_llm_keeps. Qed.

Lemma call_llm_keeps_uuid_pos messages : keeps uuid_pos (call_llm messages).
Proof. call_llm_keeps. Qed.

#[export] Hint Resolve call_llm_keeps_fs call_llm_keeps_env call_llm_keeps_net
  call_llm_keeps_uuids call_llm_keeps_uuid_pos : keeps.

Ltac seed_loader_keeps :=
  unfold load_seed_examples; keeps_auto.

Lemma load_seed_examples_keeps_fs path n : keeps fs (load_seed_examples path n).
Proof. seed_loader_keeps. Qed.

Lemma load_seed_examples_keeps_sent path n : keeps sent (load_seed_examples path n).
Proof. seed_loader_keeps. Qed.

Lemma load_seed_examples_keeps_env path n : keeps env (load_seed_examples path n).
Proof. seed_loader_keeps. Qed.

(** ** [random.sample] *)

Lemma pick_submseteq {A : Type} (draw : nat -> nat) (k : nat) :
  forall (pos : nat) (pool : list A), pick draw pos k pool ⊆+ pool.
Proof.
  induction k as [| k IH]; intros pos pool; simpl.
  - apply submseteq_nil_l.
  - destruct (pool !! _) as [x |] eqn:E; [| apply submseteq_nil_l].
    etrans; [apply submseteq_skip, IH |].
    apply Permutation_submseteq. symmetry. by apply delete_Permutation.
Qed.

Lemma pick_length {A : Type} (draw : nat -> nat) (k : nat) :
  forall (pos : nat) (pool : list A),
    (k <= length pool)%nat -> length (pick draw pos k pool) = k.
Proof.
  induction k as [| k IH]; intros pos pool Hk; simpl; [done |].
  assert (draw pos mod length pool < length pool)%nat as Hlt
      by (apply Nat.mod_upper_bound; lia).
  destruct (lookup_lt_is_Some_2 pool _ Hlt) as [x E]. rewrite E. simpl.
  rewrite IH; [done |].
  rewrite length_delete by eauto. lia.
Qed.

Lemma pick_NoDup {A : Type} (draw : nat -> nat) (k pos : nat) (pool : list A) :
  NoDup pool -> NoDup (pick draw pos k pool).
Proof.
  intros Hnd.
  destruct (proj1 (submseteq_sublist_r _ _) (pick_submseteq draw k pos pool))
    as (l & Hperm & Hsub).
  rewrite Hperm. by eapply sublist_NoDup.
Qed.

(** Drawing everything visits every element exactly once. *)
Lemma pick_all {A : Type} (draw : nat -> nat) (pos : nat) (pool : list A) :
  pick draw pos (length pool) pool ≡ₚ pool.
Proof.
  apply submseteq_length_Permutation; [apply pick_submseteq |].
  by rewrite pick_length.
Qed.

Lemma all_constraints_NoDup : NoDup all_constraints.
Proof. apply (bool_decide_unpack (NoDup all_constraints)). vm_compute. exact I. Qed.

(** Two labels drawn from the vocabulary. *)
Lemma sample_two_constraints (w : world) :
  exists a b,
    random_sample all_constraints 2 w
    = (Ok [a; b], set_rng_pos (rng_pos w + 2) w)
    /\ pick (rng w) (rng_pos w) 2 all_constraints = [a; b]
    /\ a <> b /\ a ∈ all_constraints /\ b ∈ all_constraints.
Proof.
  pose proof (pick_length (rng w) 2 (rng_pos w) all_constraints) as Hlen.
  pose proof (pick_NoDup (rng w) 2 (rng_pos w) all_constraints all_constraints_NoDup) as Hnd.
  pose proof (pick_submseteq (rng w) 2 (rng_pos w) all_constraints) as Hsub.
  destruct (pick (rng w) (rng_pos w) 2 all_constraints) as [| a [| b [| c l]]] eqn:E;
    try (simpl in Hlen; specialize (Hlen ltac:(vm_compute; lia)); discriminate).
  exists a, b. split; [| split; [done |]; split; [| split]].
  - unfold random_sample.
    replace ((2 <? 0) || (Z.of_nat (length all_constraints) <? 2)) with false
      by reflexivity.
    change (Z.to_nat 2) with 2%nat. by rewrite E.
  - apply NoDup_cons in Hnd as [Hnotin _]. set_solver.
  - eapply elem_of_submseteq; [| exact Hsub]. set_solver.
  - eapply elem_of_submseteq; [| exact Hsub]. set_solver.
Qed.

(** A pass through the loop body prints a line, draws two labels and
    goes on with them in a world that differs in the output and in the
    position of the generator only. *)
Lemma attempt_draws (sp out : string) (n c : Z) (w : world) :
  exists a b w1,
    pick (rng w) (rng_pos w) 2 all_constraints = [a; b]
    /\ a <> b /\ a ∈ all_constraints /\ b ∈ all_constraints
    /\ (fs w1 = fs w /\ uuids w1 = uuids w /\ uuid_pos w1 = uuid_pos w
        /\ env w1 = env w /\ net w1 = net w /\ sent w1 = sent w)
    /\ stdout w1 = (stdout w ++ [progress_line c n])%list
    /\ attempt sp out n c w = request_record sp out a b c w1.
Proof.
  unfold attempt, bind at 1. simpl.
  match goal with
  | |- context [bind (random_sample _ _) _ ?w0] =>
      destruct (sample_two_constraints w0) as (a & b & Hs & Hp & Hab & Ha & Hb);
      exists a, b, (set_rng_pos (rng_pos w0 + 2) w0)
  end.
  split_and?; try done.
  unfold bind at 1. by rewrite Hs.
Qed.

(** C7.  On every pass through the loop body the two constraints put in the
    user instruction are distinct labels of the vocabulary; the
    vocabulary is a constant list of 22 labels, all different. *)
Theorem C7_constraint_pair :
  length all_constraints = 22%nat
  /\ NoDup all_constraints
  /\ forall (system_prompt output_path : string) (num_to_generate count : Z) (w : world),
      exists constraint_a constraint_b w1,
        pick (rng w) (rng_pos w) 2 all_constraints = [constraint_a; constraint_b]
        /\ constraint_a <> constraint_b
        /\ constraint_a ∈ all_constraints
        /\ constraint_b ∈ all_constraints
        /\ attempt system_prompt output_path num_to_generate count w
           = request_record system_prompt output_path constraint_a constraint_b count w1.
Proof.
  split; [reflexivity |]. split; [apply all_constraints_NoDup |].
  intros sp out n c w.
  destruct (attempt_draws sp out n c w) as (a & b & w1 & Hp & Hab & Ha & Hb & _ & _ & H).
  by exists a, b, w1.
Qed.

(** ** Handling one answer *)

Lemma has_required_keys_dict d :
  has_required_keys (JObj d) = Ok (dict_has "messages" d && dict_has "condition" d).
Proof. unfold has_required_keys. simpl. by destruct (dict_has "messages" d). Qed.

(** Closes the branches in which nothing is written. *)
Ltac nothing_persisted :=
  simplify_eq/=;
  split_and?; try done;
  left; split_and?;
  first [ done | by left | by right | intros ? ?; congruence ].

Lemma validate_and_persist_cases out resp c w r w' :
  validate_and_persist out resp c w = (r, w') ->
  uuids w' = uuids w /\ sent w' = sent w /\ env w' = env w /\ net w' = net w
  /\ handled out resp c w r w'.
Proof.
  unfold handled, validate_and_persist, bind, lift, loads_value, print, ret, raise.
  intros H.
  destruct resp as [| | | | text | |]; try nothing_persisted.
  destruct (loads_cases text) as [[v Hv] | Hv]; rewrite Hv in H;
    [| nothing_persisted].
  destruct (has_required_keys v) as [[|] | e |] eqn:Hk; simpl in H;
    [| nothing_persisted ..].
  unfold uuid4_str, set_item, write_flush in H.
  destruct v as [| | | | | | d]; try nothing_persisted.
  rewrite has_required_keys_dict in Hk.
  injection Hk as Hk. apply andb_true_iff in Hk as [Hm Hc].
  simpl in H.
  destruct (utf8_encodable _) eqn:Henc; [| nothing_persisted].
  simplify_eq/=.
  split_and?; try done. right. exists text, d. split_and?; done.
Qed.

Lemma handle_response_cases out resp c w r w' :
  handle_response out resp c w = (r, w') ->
  uuids w' = uuids w /\ sent w' = sent w /\ env w' = env w /\ net w' = net w
  /\ handled out resp c w r w'.
Proof.
  unfold handle_response. intros H.
  destruct (truthy resp); [| unfold handled, bind, print, ret in *; nothing_persisted].
  unfold bind, catch in H.
  destruct (validate_and_persist out resp c w) as [[c1 | e |] w1] eqn:E;
    apply validate_and_persist_cases in E as (Hu & Hs & He & Hn & Hh).
  - unfold ret in H. by simplify_eq.
  - assert (fs w1 = fs w
            /\ (uuid_pos w1 = uuid_pos w \/ uuid_pos w1 = S (uuid_pos w))) as [Hf Hp].
    { destruct Hh as [(? & ? & _) | (? & ? & _ & _ & _ & _ & ? & _)]; [done | congruence]. }
    unfold handled, bind, print, ret, raise in *.
    destruct e; simplify_eq/=; split_and?; try done; left; split_and?;
      try done; intros ? ?; congruence.
  - by simplify_eq.
Qed.

(** ** One pass, and the loop *)

Lemma call_llm_frame msgs w r w' :
  call_llm msgs w = (r, w') ->
  fs w' = fs w /\ env w' = env w /\ net w' = net w
  /\ uuids w' = uuids w /\ uuid_pos w' = uuid_pos w.
Proof.
  intros H.
  pose proof (call_llm_keeps_fs msgs w) as Kf.
  pose proof (call_llm_keeps_env msgs w) as Ke.
  pose proof (call_llm_keeps_net msgs w) as Kn.
  pose proof (call_llm_keeps_uuids msgs w) as Ku.
  pose proof (call_llm_keeps_uuid_pos msgs w) as Kp.
  rewrite H in Kf, Ke, Kn, Ku, Kp. done.
Qed.

Lemma attempt_cases sp out n c w r w' :
  attempt sp out n c w = (r, w') ->
  uuids w' = uuids w /\ env w' = env w /\ net w' = net w
  /\ ((fs w' = fs w
       /\ (uuid_pos w' = uuid_pos w \/ uuid_pos w' = S (uuid_pos w))
       /\ (forall c', r = Ok c' -> c' = c))
      \/ exists members,
           dict_has "messages" members = true
           /\ dict_has "condition" members = true
           /\ r = Ok (c + 1)
           /\ uuid_pos w' = S (uuid_pos w)
           /\ fs w' = appended out (chunk (tagged (uuids w) (uuid_pos w, members)))
                               (fs w)).
Proof.
  destruct (attempt_draws sp out n c w) as (a & b & w1 & _ & _ & _ & _ & Hw1 & _ & ->).
  destruct Hw1 as (Hfs & Hu & Hup & He & Hn & Hsent).
  unfold request_record, bind.
  destruct (call_llm _ w1) as [[resp | e |] w2] eqn:Ec;
    apply call_llm_frame in Ec as (Kf & Ke & Kn & Ku & Kp); intros H.
  - apply handle_response_cases in H as (Hu' & _ & He' & Hn' & Hh).
    split_and?; try congruence.
    destruct Hh as [(? & ? & ?) | (text & d & _ & _ & ? & ? & ? & ? & ?)].
    + left. split_and?; [congruence | | done].
      rewrite <- Hup, <- Kp. done.
    + right. exists d. split_and?; try done; congruence.
  - simplify_eq. split_and?; try congruence.
    left. split_and?; [congruence | left; congruence | intros ? ?; congruence].
  - simplify_eq. split_and?; try congruence.
    left. split_and?; [congruence | left; congruence | intros ? ?; congruence].
Qed.

Lemma appended_appended out t1 t2 files :
  appended out t2 (appended out t1 files) = appended out (t1 +:+ t2) files.
Proof.
  unfold appended. rewrite lookup_insert_eq, insert_insert_eq. simpl.
  by rewrite string_app_assoc.
Qed.

Lemma after_writes_cons out t texts files :
  after_writes out (t :: texts) files = after_writes out texts (appended out t files).
Proof. reflexivity. Qed.


Lemma after_writes_other out texts p :
  p <> out -> forall files, after_writes out texts files !! p = files !! p.
Proof.
  intros Hne. induction texts as [| t texts IH]; intros files; [done |].
  rewrite after_writes_cons, IH. unfold appended. by rewrite lookup_insert_ne.
Qed.

(** What a run of the loop leaves behind, whatever way it ends: the
    records written, each with the position of its id. *)
Lemma no_records out n c w r w' :
  fs w' = fs w ->
  (forall c', r = Ok c' -> c' = c /\ (c' <? n) = false) ->
  loop_trace out n c w r w' [].
Proof.
  intros Hf Hr. unfold loop_trace. split_and?; [done | constructor | constructor |].
  intros c' Hc'. destruct (Hr c' Hc') as [-> ?]. split; [simpl; lia | done].
Qed.

Lemma generation_loop_trace fuel sp out n :
  forall c w r w',
    generation_loop fuel sp out n c w = (r, w') ->
    uuids w' = uuids w /\ env w' = env w /\ net w' = net w
    /\ (uuid_pos w <= uuid_pos w')%nat
    /\ exists recs, loop_trace out n c w r w' recs.
Proof.
  induction fuel as [| fuel IH]; intros c w r w'; simpl.
  - destruct (c <? n) eqn:Hc; unfold out_of_fuel, ret; intros H; simplify_eq;
      (split_and?; try done); exists []; apply no_records; try done;
      intros ? ?; by simplify_eq.
  - destruct (c <? n) eqn:Hc.
    2: { unfold ret. intros H. simplify_eq. split_and?; try done.
         exists []. apply no_records; [done |]. intros ? ?; by simplify_eq. }
    unfold bind.
    destruct (attempt sp out n c w) as [[c1 | e |] w1] eqn:Ea;
      apply attempt_cases in Ea as (Hu & He & Hn & Hcase).
    + intros H. apply IH in H as (Hu' & He' & Hn' & Hle & recs & Hfs & Hall & Hnd & Hr).
      destruct Hcase as [(Hf & Hp & Hc1) | (d & Hm & Hcd & Hc1 & Hp & Hf)].
      * specialize (Hc1 _ eq_refl) as ->.
        split_and?; try congruence; [destruct Hp; lia |].
        exists recs. unfold loop_trace. rewrite <- Hf, <- Hu. split_and?; try done.
        eapply Forall_impl; [exact Hall |]. simpl. intros rec (? & ? & ?).
        split_and?; try done; destruct Hp; lia.
      * injection Hc1 as ->.
        split_and?; try congruence; [lia |].
        exists ((uuid_pos w, d) :: recs). unfold loop_trace.
        rewrite fmap_cons, after_writes_cons. cbn beta.
        rewrite <- Hf, <- Hu. split_and?; try done.
        -- constructor; [simpl; split_and?; try done; lia |].
           eapply Forall_impl; [exact Hall |]. simpl. intros rec (? & ? & ?).
           split_and?; try done; lia.
        -- rewrite fmap_cons. constructor; [| done].
           intros Hin. apply list_elem_of_fmap in Hin as (rec & Heq & Hin).
           rewrite Forall_forall in Hall. apply Hall in Hin. simpl in Heq. lia.
        -- intros c' Hc'. destruct (Hr c' Hc') as [-> ?].
           split; [rewrite length_cons; lia | done].
    + intros H. simplify_eq.
      destruct Hcase as [(Hf & Hp & Hc1) | (d & _ & _ & ? & _)]; [| done].
      split_and?; try done; [destruct Hp; lia |].
      exists []. apply no_records; [done |]. intros ? ?; by simplify_eq.
    + intros H. simplify_eq.
      destruct Hcase as [(Hf & Hp & Hc1) | (d & _ & _ & ? & _)]; [| done].
      split_and?; try done; [destruct Hp; lia |].
      exists []. apply no_records; [done |]. intros ? ?; by simplify_eq.
Qed.

Lemma load_seed_examples_keeps_uuids path n : keeps uuids (load_seed_examples path n).
Proof. seed_loader_keeps. Qed.

Lemma load_seed_examples_frame path n w r w' :
  load_seed_examples path n w = (r, w') ->
  fs w' = fs w /\ sent w' = sent w /\ env w' = env w /\ uuids w' = uuids w.
Proof.
  intros H.
  pose proof (load_seed_examples_keeps_fs path n w) as Kf.
  pose proof (load_seed_examples_keeps_sent path n w) as Ks.
  pose proof (load_seed_examples_keeps_env path n w) as Ke.
  pose proof (load_seed_examples_keeps_uuids path n w) as Ku.
  rewrite H in Kf, Ks, Ke, Ku. done.
Qed.

(** ** The claims about stored records *)

(** C9.  When [validate_and_persist] writes to the file system or counts a
    record, the answer was the text of a JSON object; what is appended
    to the output file
    is that object with ["id"] set to the next fresh id of the world:
    the value under ["id"] is the fresh id (an ["id"] of the model is
    overwritten in place, a missing one is added at the end) and every
    other key keeps its value and its position. *)
Theorem C9_only_id_changes (output_path : string) (llm_response_str : json)
    (count : Z) (w : world) (r : outcome Z) (w' : world) :
  validate_and_persist output_path llm_response_str count w = (r, w') ->
  fs w' <> fs w \/ r = Ok (count + 1) ->
  exists text members,
    llm_response_str = JStr text
    /\ loads text = Ok (JObj members)
    /\ let fresh := uuids w (uuid_pos w) in
       let stored := dict_set "id" (JStr fresh) members in
       fs w' = <[output_path := default "" (fs w !! output_path)
                                +:+ dumps (JObj stored) +:+ backslash_n]> (fs w)
       /\ uuid_pos w' = S (uuid_pos w)
       /\ dict_get "id" stored = Some (JStr fresh)
       /\ (forall k, k <> "id" -> dict_get k stored = dict_get k members)
       /\ dict_keys stored
          = if dict_has "id" members then dict_keys members
            else (dict_keys members ++ ["id"])%list.
Proof.
  intros H Hfs.
  apply validate_and_persist_cases in H as (_ & _ & _ & _ & Hh).
  destruct Hh as [(Hsame & _ & Hc) | (text & d & -> & Hl & _ & _ & _ & Hp & Hf)].
  { destruct Hfs as [Hfs | ->]; [done |]. specialize (Hc _ eq_refl). lia. }
  exists text, d. split; [done |]. split; [done |]. cbn zeta. split_and?.
  - exact Hf.
  - exact Hp.
  - apply dict_get_set_eq.
  - intros k Hk. by apply dict_get_set_ne.
  - apply dict_keys_set.
Qed.

(** C9 on the first answer of [Mock.good_world]. *)
Lemma C9_only_id_changes_witness :
  let res := validate_and_persist "out.jsonl" (JStr Mock.record_text) 0 Mock.good_world in
  exists text members,
    JStr Mock.record_text = JStr text
    /\ loads text = Ok (JObj members)
    /\ let fresh := uuids Mock.good_world (uuid_pos Mock.good_world) in
       let stored := dict_set "id" (JStr fresh) members in
       fs (snd res)
       = <["out.jsonl" := default "" (fs Mock.good_world !! "out.jsonl")
                          +:+ dumps (JObj stored) +:+ backslash_n]> (fs Mock.good_world)
       /\ uuid_pos (snd res) = S (uuid_pos Mock.good_world)
       /\ dict_get "id" stored = Some (JStr fresh)
       /\ (forall k, k <> "id" -> dict_get k stored = dict_get k members)
       /\ dict_keys stored
          = if dict_has "id" members then dict_keys members
            else (dict_keys members ++ ["id"])%list.
Proof.
  intros res.
  apply (C9_only_id_changes "out.jsonl" (JStr Mock.record_text) 0 Mock.good_world
           (fst res) (snd res)).
  - apply surjective_pairing.
  - left. intros Heq. apply (f_equal (fun files => files !! "out.jsonl")) in Heq.
    vm_compute in Heq. discriminate.
Defined.


Lemma after_writes_fresh_other out texts files p :
  p <> out -> after_writes out texts (<[out := ""]> files) !! p = files !! p.
Proof.
  intros Hne. rewrite after_writes_other by done. by rewrite lookup_insert_ne.
Qed.

(** A run either leaves the file system alone (it stopped before the
    output file was opened) or leaves the output file with the records
    of a trace of the loop. *)
Lemma generate_synthetic_data_trace fuel path out n w r w' :
  generate_synthetic_data fuel path out n w = (r, w') ->
  fs w' = fs w
  \/ exists (w1 : world) (r1 : outcome Z) (recs : list (nat * list (string * json))),
       uuids w1 = uuids w
       /\ fs w1 = <[out := ""]> (fs w)
       /\ loop_trace out n 0 w1 r1 w' recs
       /\ (r = Ok tt -> r1 = Ok (Z.of_nat (length recs))).
Proof.
  unfold generate_synthetic_data, bind.
  destruct (load_seed_examples path 3 w) as [[seeds | e |] w0] eqn:El;
    apply load_seed_examples_frame in El as (Hf0 & _ & _ & Hu0);
    [| intros H; simplify_eq; by left ..].
  destruct seeds as [| seed seeds].
  { unfold print, ret. intros H. simplify_eq/=. by left. }
  unfold lift.
  destruct (build_system_prompt _ _) as [sp | e |]; [| intros H; simplify_eq; by left ..].
  unfold open_write.
  destruct (generation_loop fuel sp out n 0 _) as [[c | e |] w2] eqn:Eg;
    apply generation_loop_trace in Eg as (Hu & _ & _ & _ & recs & Ht);
    unfold print, ret; intros H; simplify_eq/=; right;
    eexists _, _, recs; (split_and?; [| | exact Ht |]); simpl; try done;
    try (by rewrite Hf0).
  intros _. f_equal. destruct Ht as (_ & _ & _ & Hc). destruct (Hc c eq_refl). lia.
Qed.


(** The mock ids are all different. *)
Lemma fresh_id_inj (i j : nat) : Mock.fresh_id i = Mock.fresh_id j -> i = j.
Proof.
  unfold Mock.fresh_id. intros H.
  apply (inj (String.app _)) in H. by apply (inj pretty) in H.
Qed.


(** ** Stopping before the loop *)

(** C10.  When seed loading returns an empty list, the run ends at once:
    the file system is the one it started with, so a file at the output
    path is neither created nor emptied, and nothing was sent. *)
Theorem C10_seed_failure_leaves_files (fuel : nat)
    (original_data_path output_path : string) (num_to_generate : Z) (w : world) :
  fst (load_seed_examples original_data_path 3 w) = Ok [] ->
  exists w',
    generate_synthetic_data fuel original_data_path output_path num_to_generate w
    = (Ok tt, w')
    /\ fs w' = fs w
    /\ fs w' !! output_path = fs w !! output_path
    /\ sent w' = sent w
    /\ stdout w'
       = (stdout (snd (load_seed_examples original_data_path 3 w))
          ++ ["无法加载种子示例，流程终止。"])%list.
Proof.
  intros Hl. unfold generate_synthetic_data, bind.
  destruct (load_seed_examples original_data_path 3 w) as [r w0] eqn:El.
  apply load_seed_examples_frame in El as (Hf & Hs & _ & _).
  simpl in Hl. subst r. eexists. split; [reflexivity |].
  simpl. by rewrite Hf, Hs.
Qed.

(** C10 on [Mock.bad_seed_world], with the seed file itself as output path. *)
Lemma C10_seed_failure_leaves_files_witness :
  exists w',
    generate_synthetic_data 7 "seeds.jsonl" "seeds.jsonl" 50 Mock.bad_seed_world
    = (Ok tt, w')
    /\ fs w' = fs Mock.bad_seed_world
    /\ fs w' !! "seeds.jsonl" = fs Mock.bad_seed_world !! "seeds.jsonl"
    /\ sent w' = sent Mock.bad_seed_world
    /\ stdout w'
       = (stdout (snd (load_seed_examples "seeds.jsonl" 3 Mock.bad_seed_world))
          ++ ["无法加载种子示例，流程终止。"])%list.
Proof.
  apply (C10_seed_failure_leaves_files 7 "seeds.jsonl" "seeds.jsonl" 50
           Mock.bad_seed_world).
  vm_compute. reflexivity.
Defined.

(** ** Without the credential *)

Lemma call_llm_without_key msgs w :
  has_text (API_KEY w) = false ->
  call_llm msgs w = (Ok JNull, set_stdout (stdout w ++ [missing_key_line]) w).
Proof. intros H. unfold call_llm. by rewrite H. Qed.

Lemma attempt_without_key sp out n c w :
  has_text (API_KEY w) = false ->
  exists w1,
    attempt sp out n c w = (Ok c, w1)
    /\ fs w1 = fs w /\ sent w1 = sent w /\ env w1 = env w
    /\ exists more, stdout w1 = (stdout w ++ progress_line c n :: missing_key_line :: more)%list.
Proof.
  intros Hk.
  destruct (attempt_draws sp out n c w)
    as (a & b & w1 & _ & _ & _ & _ & (Hf & _ & _ & He & _ & Hs) & Ho & ->).
  unfold request_record, bind.
  rewrite call_llm_without_key by (unfold API_KEY in *; by rewrite He).
  unfold handle_response. simpl. eexists. split; [reflexivity |]. simpl.
  split_and?; try done.
  eexists. rewrite Ho. rewrite <- !app_assoc. reflexivity.
Qed.

(** Without the credential the loop cannot leave: it uses up any fuel. *)
Lemma generation_loop_without_key fuel sp out n :
  forall c w,
    has_text (API_KEY w) = false -> c < n ->
    exists w',
      generation_loop fuel sp out n c w = (Exhausted, w')
      /\ fs w' = fs w /\ sent w' = sent w
      /\ exists more, stdout w' = (stdout w ++ more)%list
                      /\ ((0 < fuel)%nat -> missing_key_line ∈ more).
Proof.
  induction fuel as [| fuel IH]; intros c w Hk Hc; simpl;
    rewrite (proj2 (Z.ltb_lt c n) Hc).
  - eexists. split; [reflexivity |]. split_and?; try done.
    exists []. split; [by rewrite app_nil_r | lia].
  - unfold bind.
    destruct (attempt_without_key sp out n c w Hk)
      as (w1 & -> & Hf & Hs & He & more1 & Ho).
    destruct (IH c w1) as (w' & -> & Hf' & Hs' & more & Ho' & _);
      [unfold API_KEY in *; by rewrite He | done |].
    eexists. split; [reflexivity |]. split_and?; try congruence.
    eexists. split; [rewrite Ho', Ho, <- app_assoc; reflexivity |].
    intros _. set_solver.
Qed.

(** C2.  With the credential unset or empty, a run that gets past seed
    loading and asks for at least one record opens (and empties) the
    output file and then never leaves its loop: whatever the fuel, it is
    used up.  Nothing is sent and no record is written; every pass
    prints the message about the missing variable. *)
Theorem C2_missing_credential_never_terminates (fuel : nat)
    (original_data_path output_path : string) (num_to_generate : Z) (w : world)
    (seed : json) (seeds : list json) (system_prompt : string) :
  has_text (API_KEY w) = false ->
  0 < num_to_generate ->
  fst (load_seed_examples original_data_path 3 w) = Ok (seed :: seeds) ->
  build_system_prompt (seed :: seeds) all_constraints = Ok system_prompt ->
  exists w',
    generate_synthetic_data fuel original_data_path output_path num_to_generate w
    = (Exhausted, w')
    /\ sent w' = sent w
    /\ fs w' = <[output_path := ""]> (fs w)
    /\ ((0 < fuel)%nat -> missing_key_line ∈ stdout w').
Proof.
  intros Hk Hn Hl Hb. unfold generate_synthetic_data, bind.
  destruct (load_seed_examples original_data_path 3 w) as [r w0] eqn:El.
  apply load_seed_examples_frame in El as (Hf & Hs & He & _).
  simpl in Hl. subst r. rewrite Hb. unfold lift, open_write.
  match goal with
  | |- context [generation_loop fuel ?sp ?out ?n ?c ?w1] =>
      destruct (generation_loop_without_key fuel sp out n c w1)
        as (w' & -> & Hf' & Hs' & more & Ho & Hm)
  end; [unfold API_KEY in *; simpl; by rewrite He | done |].
  eexists. split; [reflexivity |]. simpl in *. split_and?; try congruence.
  intros Hfuel. rewrite Ho. apply elem_of_app. right. by apply Hm.
Qed.

(** C2 on [Mock.no_key_world] with target 1. *)
Lemma C2_missing_credential_never_terminates_witness :
  exists w',
    generate_synthetic_data 4 "seeds.jsonl" "out.jsonl" 1 Mock.no_key_world
    = (Exhausted, w')
    /\ sent w' = sent Mock.no_key_world
    /\ fs w' = <["out.jsonl" := ""]> (fs Mock.no_key_world)
    /\ ((0 < 4)%nat -> missing_key_line ∈ stdout w').
Proof.
  eapply (C2_missing_credential_never_terminates 4 "seeds.jsonl" "out.jsonl" 1
            Mock.no_key_world).
  - reflexivity.
  - lia.
  - vm_compute. reflexivity.
  - vm_compute. reflexivity.
Defined.

(** ** The model client *)

Lemma status_passes status url reason text :
  ((400 <=? status) && (status <? 600)) = false ->
  raise_for_status url (status, reason, text) = ret tt.
Proof.
  intros H. unfold raise_for_status.
  destruct (400 <=? status) eqn:E1, (status <? 500) eqn:E2,
    (500 <=? status) eqn:E3, (status <? 600) eqn:E4; simpl in *; try done; lia.
Qed.

(** What [call_llm] does when the endpoint answers with a body that
    parses: the outcome of the subscripts decides. *)
Lemma call_llm_answered messages w status reason body v :
  has_text (API_KEY w) = true ->
  net w (length (sent w)) = Response status reason body ->
  ((400 <=? status) && (status <? 600)) = false ->
  loads body = Ok v ->
  let w1 := set_sent (sent w ++ [chat_request w messages]) w in
  call_llm messages w
       = match completion_of v with
         | Ok content => (Ok content, w1)
         | Raise (RequestException e) => request_failed e w1
         | Raise (KeyError e) => shape_failed e (status, reason, body) w1
         | Raise (IndexError e) => shape_failed e (status, reason, body) w1
         | Raise e => (Raise e, w1)
         | Exhausted => (Exhausted, w1)
         end.
Proof.
  intros Hk Hn Hs Hl. unfold call_llm. rewrite Hk. simpl.
  unfold bind at 1, catch at 1, requests_post. rewrite Hn.
  unfold bind at 1, catch, extract_completion.
  rewrite (status_passes _ _ _ _ Hs). unfold bind, ret, response_json.
  rewrite Hl. unfold ret, lift.
  destruct (completion_of v) as [content | [] |]; reflexivity.
Qed.



(** The failures that [call_llm] reports: the request raises, the
    status is an error, the body does not parse. *)
Lemma call_llm_post_raises messages w msg :
  has_text (API_KEY w) = true ->
  net w (length (sent w)) = PostRaises msg ->
  call_llm messages w
  = request_failed msg (set_sent (sent w ++ [chat_request w messages]) w).
Proof.
  intros Hk Hn. unfold call_llm. rewrite Hk. simpl.
  unfold bind at 1, catch at 1, requests_post. by rewrite Hn.
Qed.

Lemma call_llm_http_error messages w status reason body :
  has_text (API_KEY w) = true ->
  net w (length (sent w)) = Response status reason body ->
  ((400 <=? status) && (status <? 600)) = true ->
  exists e,
    call_llm messages w
    = request_failed e (set_sent (sent w ++ [chat_request w messages]) w).
Proof.
  intros Hk Hn Hs. unfold call_llm. rewrite Hk. simpl.
  unfold bind at 1, catch at 1, requests_post. rewrite Hn.
  unfold bind at 1, catch, extract_completion, raise_for_status, bind, raise.
  destruct ((400 <=? status) && (status <? 500)) eqn:E1; [eauto |].
  destruct ((500 <=? status) && (status <? 600)) eqn:E2; [eauto |].
  exfalso. destruct (400 <=? status) eqn:?, (status <? 500) eqn:?,
    (500 <=? status) eqn:?, (status <? 600) eqn:?; simpl in *; try done; lia.
Qed.

Lemma call_llm_bad_body messages w status reason body :
  has_text (API_KEY w) = true ->
  net w (length (sent w)) = Response status reason body ->
  ((400 <=? status) && (status <? 600)) = false ->
  loads body = Raise JSONDecodeError ->
  call_llm messages w
  = request_failed "JSONDecodeError"
                   (set_sent (sent w ++ [chat_request w messages]) w).
Proof.
  intros Hk Hn Hs Hl. unfold call_llm. rewrite Hk. simpl.
  unfold bind at 1, catch at 1, requests_post. rewrite Hn.
  unfold bind at 1, catch, extract_completion.
  rewrite (status_passes _ _ _ _ Hs). unfold bind, ret, response_json.
  by rewrite Hl.
Qed.


(** C8.  When the endpoint answers with a body whose shape makes a subscript
    raise [TypeError] (a list, a string, a number or [null] where a
    dict or a list is expected), [call_llm] does not return a failure
    signal: the exception leaves the function, and nothing is printed. *)
Theorem C8_type_error_escapes (messages : json) (w : world)
    (status : Z) (reason body : string) (v : json) :
  has_text (API_KEY w) = true ->
  net w (length (sent w)) = Response status reason body ->
  ((400 <=? status) && (status <? 600)) = false ->
  loads body = Ok v ->
  completion_of v = Raise TypeError ->
  exists w',
    call_llm messages w = (Raise TypeError, w')
    /\ stdout w' = stdout w
    /\ length (sent w') = S (length (sent w)).
Proof.
  intros Hk Hn Hs Hl Hc.
  rewrite (call_llm_answered messages w status reason body v Hk Hn Hs Hl).
  rewrite Hc. eexists. split; [reflexivity |]. simpl.
  split; [done |]. rewrite length_app. simpl. lia.
Qed.

(** C8 on [Mock.null_choices_world]. *)
Lemma C8_type_error_escapes_witness :
  exists w',
    call_llm (chat_messages "system" "user") Mock.null_choices_world
    = (Raise TypeError, w')
    /\ stdout w' = stdout Mock.null_choices_world
    /\ length (sent w') = S (length (sent Mock.null_choices_world)).
Proof.
  apply (C8_type_error_escapes (chat_messages "system" "user") Mock.null_choices_world
           200 "OK" Mock.null_choices_body (JObj [("choices", JNull)])).
  - reflexivity.
  - reflexivity.
  - reflexivity.
  - vm_compute. reflexivity.
  - reflexivity.
Defined.

(** The exception ends the whole run: the call is outside the [try] of
    the loop. *)
Example null_choices_run_raises :
  fst (generate_synthetic_data 3 "seeds.jsonl" "out.jsonl" 5 Mock.null_choices_world)
  = Raise TypeError.
Proof. vm_compute. reflexivity. Qed.

(** ** The format of the output file *)

(** C1.  The client answers every call with the text of a JSON object with
    both keys, the target is 5 and the ids are distinct; the run ends
    normally.  Five records are written, each one valid JSON on its own
    and each with another id.  But every record is followed by a
    backslash and an n, not by a line feed: the output file holds no
    line feed at all; read back, it is one line, not five, and that
    line is not JSON. *)
Theorem C1_output_is_one_line :
  let res := generate_synthetic_data 5 "seeds.jsonl" "out.jsonl" 5 Mock.good_world in
  fst res = Ok tt
  /\ exists content records,
       fs (snd res) !! "out.jsonl" = Some content
       /\ length records = 5%nat
       /\ content = Str.concat ((fun members => dumps (JObj members) +:+ backslash_n)
                                  <$> records)
       /\ Forall (fun members => loads (dumps (JObj members)) = Ok (JObj members))
                 records
       /\ NoDup (dict_get "id" <$> records)
       /\ Str.count_char Str.newline content = 0%nat
       /\ length (Str.readlines content) = 1%nat
       /\ Forall (fun line => loads line = Raise JSONDecodeError)
                 (Str.readlines content).
Proof.
  cbn zeta. split; [vm_compute; reflexivity |].
  eexists.
  exists ((fun i => [("messages", JArr []); ("condition", JArr []);
                     ("id", JStr (Mock.fresh_id i))]) <$> [0; 1; 2; 3; 4]%nat).
  split; [vm_compute; reflexivity |].
  split; [reflexivity |].
  split; [vm_compute; reflexivity |].
  split; [repeat (constructor; [vm_compute; reflexivity |]); constructor |].
  split.
  { rewrite <- list_fmap_compose. apply NoDup_fmap_2.
    - intros i j H. apply fresh_id_inj.
      change (Some (JStr (Mock.fresh_id i)) = Some (JStr (Mock.fresh_id j))) in H.
      congruence.
    - apply (bool_decide_unpack (NoDup [0; 1; 2; 3; 4]%nat)). exact I. }
  split; [vm_compute; reflexivity |].
  split; [vm_compute; reflexivity |].
  match goal with
  | |- Forall _ ?l => let l' := eval vm_compute in l in change l with l'
  end.
  constructor; [vm_compute; reflexivity | constructor].
Qed.

(** ** Failed attempts *)

Lemma loads_empty : loads "" = Raise JSONDecodeError.
Proof. reflexivity. Qed.

Lemma truthy_parsed text v : loads text = Ok v -> truthy (JStr text) = true.
Proof.
  intros H. simpl. destruct (String.eqb text "") eqn:E; [| done].
  apply String.eqb_eq in E as ->. by rewrite loads_empty in H.
Qed.








(** The counter goes up in steps of one, so a loop that ends normally
    ends with the counter at the target. *)
Lemma generation_loop_final fuel sp out n :
  forall c w c' w',
    generation_loop fuel sp out n c w = (Ok c', w') -> c <= n -> c' = n.
Proof.
  induction fuel as [| fuel IH]; intros c w c' w'; simpl.
  - destruct (c <? n) eqn:Hc; unfold out_of_fuel, ret; intros H Hle; simplify_eq.
    apply Z.ltb_ge in Hc. lia.
  - destruct (c <? n) eqn:Hc.
    2: { unfold ret. intros H Hle. simplify_eq. apply Z.ltb_ge in Hc. lia. }
    apply Z.ltb_lt in Hc. unfold bind.
    destruct (attempt sp out n c w) as [[c1 | e |] w1] eqn:Ea; [| done ..].
    apply attempt_cases in Ea as (_ & _ & _ & Hcase).
    intros H _. apply IH in H; [done |].
    destruct Hcase as [(_ & _ & Hc1) | (d & _ & _ & Hc1 & _)].
    + rewrite (Hc1 _ eq_refl). lia.
    + injection Hc1 as ->. lia.
Qed.


(** ** ASCII text can be written out *)











(** ** Seed loading *)

Lemma parse_selected_ok selected :
  forall acc,
    Forall (fun line => Str.is_blank line = false -> exists v, loads line = Ok v)
           selected ->
    exists vs,
      parse_selected selected acc = Ok (acc ++ vs)%list
      /\ Forall2 (fun line v => loads line = Ok v)
                 (filter (fun line => Str.is_blank line = false) selected) vs.
Proof.
  induction selected as [| line rest IH]; intros acc Hall.
  - exists []. split; [simpl; by rewrite app_nil_r | constructor].
  - apply Forall_cons in Hall as [Hline Hrest]. simpl.
    destruct (Str.is_blank line) eqn:Hb; simpl.
    + destruct (IH acc Hrest) as (vs & Hp & Hf). exists vs. split; [done |].
      rewrite filter_cons_False by (rewrite Hb; done). done.
    + destruct (Hline eq_refl) as [v Hv]. rewrite Hv.
      destruct (IH (acc ++ [v])%list Hrest) as (vs & Hp & Hf). exists (v :: vs).
      split; [by rewrite Hp, <- app_assoc |].
      rewrite filter_cons_True by done. by constructor.
Qed.

Lemma parse_selected_bad selected :
  forall acc,
    (exists line, line ∈ selected /\ Str.is_blank line = false
                  /\ loads line = Raise JSONDecodeError) ->
    parse_selected selected acc = Raise JSONDecodeError.
Proof.
  induction selected as [| line rest IH]; intros acc (bad & Hin & Hb & Hl).
  - by apply elem_of_nil in Hin.
  - simpl. apply elem_of_cons in Hin as [<- | Hin].
    + by rewrite Hb, Hl.
    + destruct (Str.is_blank line); simpl; [apply IH; eauto |].
      destruct (loads_cases line) as [[v ->] | ->]; [apply IH; eauto | done].
Qed.

(** What [load_seed_examples] does with a file that is there. *)
Lemma load_seed_examples_reads path n w content :
  fs w !! path = Some content ->
  0 <= n ->
  let w1 :=
    set_rng_pos
      (rng_pos w + Z.to_nat (Z.min (Z.of_nat (length (Str.readlines content))) n)) w in
  load_seed_examples path n w
  = match parse_selected (selected_lines w content n) [] with
    | Ok seeds => (Ok seeds, w1)
    | Raise FileNotFoundError =>
        (Ok [], set_stdout (stdout w1 ++ [not_found_line path]) w1)
    | Raise JSONDecodeError =>
        (Ok [], set_stdout (stdout w1 ++ [bad_format_line path]) w1)
    | Raise e => (Raise e, w1)
    | Exhausted => (Exhausted, w1)
    end.
Proof.
  intros Hfile Hn. unfold load_seed_examples, bind at 1, catch, bind at 1, read_lines.
  rewrite Hfile. unfold bind at 1, random_sample.
  replace ((Z.min (Z.of_nat (length (Str.readlines content))) n <? 0)
           || (Z.of_nat (length (Str.readlines content))
               <? Z.min (Z.of_nat (length (Str.readlines content))) n))
    with false by (symmetry; apply orb_false_iff; split; apply Z.ltb_ge; lia).
  unfold lift, selected_lines.
  destruct (parse_selected _ _) as [seeds | [] |]; reflexivity.
Qed.

Lemma load_seed_examples_missing path n w :
  fs w !! path = None ->
  load_seed_examples path n w
  = (Ok [], set_stdout (stdout w ++ [not_found_line path]) w).
Proof.
  intros Hfile. unfold load_seed_examples, bind at 1, catch, bind at 1, read_lines.
  by rewrite Hfile.
Qed.

Lemma selected_lines_submseteq w content n :
  selected_lines w content n ⊆+ Str.readlines content.
Proof. apply pick_submseteq. Qed.

Lemma selected_lines_length w content n :
  0 <= n ->
  length (selected_lines w content n)
  = Z.to_nat (Z.min (Z.of_nat (length (Str.readlines content))) n).
Proof. intros Hn. unfold selected_lines. apply pick_length. lia. Qed.

Lemma selected_lines_all w content n :
  Z.of_nat (length (Str.readlines content)) <= n ->
  selected_lines w content n ≡ₚ Str.readlines content.
Proof.
  intros Hn. unfold selected_lines.
  rewrite Z.min_l, Nat2Z.id by done. apply pick_all.
Qed.

Lemma filter_all {A : Type} (P : A -> Prop) `{!forall x, Decision (P x)} (l : list A) :
  Forall P l -> filter P l = l.
Proof.
  induction 1 as [| x l Hx Hl IH]; [done |].
  by rewrite filter_cons_True, IH.
Qed.

(** C4 as stated fails: the seed file of [Mock.blank_first_world] has one
    seed record (after an empty first line) and one example is asked
    for, so one record is available and one should come back; the
    generator picks the empty line and the result has no record. *)
Lemma C4_counterexample_blank_line_drawn :
  fs Mock.blank_first_world !! "seeds.jsonl" = Some (nl +:+ Mock.seed_text +:+ nl)
  /\ length (seed_lines (nl +:+ Mock.seed_text +:+ nl)) = 1%nat
  /\ Z.to_nat (Z.min (Z.of_nat (length (seed_lines (nl +:+ Mock.seed_text +:+ nl)))) 1)
     = 1%nat
  /\ fst (load_seed_examples "seeds.jsonl" 1 Mock.blank_first_world) = Ok [].
Proof. split_and?; vm_compute; reflexivity. Qed.

(** C4, amended.  For a seed file and a count [n] that is not negative,
    [load_seed_examples] draws [min (number of lines, n)] lines without
    replacement, blank ones included, and, when the drawn lines that
    are not blank all parse, returns their parsed values in the order
    drawn.  So it returns at most that many records; exactly
    [min (available, n)] when the file has no blank line; and when the
    file has at most [n] lines, every seed record of the file exactly
    once. *)
Theorem C4_sample_of_lines (filepath : string) (num_examples : Z) (w : world)
    (content : string) :
  fs w !! filepath = Some content ->
  0 <= num_examples ->
  (forall line, line ∈ selected_lines w content num_examples ->
                Str.is_blank line = false -> exists v, loads line = Ok v) ->
  let lines := Str.readlines content in
  let selected := selected_lines w content num_examples in
  let drawn := filter (fun line => Str.is_blank line = false) selected in
  exists seeds,
    fst (load_seed_examples filepath num_examples w) = Ok seeds
    /\ selected ⊆+ lines
    /\ length selected = Z.to_nat (Z.min (Z.of_nat (length lines)) num_examples)
    /\ Forall2 (fun line seed => loads line = Ok seed) drawn seeds
    /\ (length seeds <= Z.to_nat (Z.min (Z.of_nat (length lines)) num_examples))%nat
    /\ (seed_lines content = lines ->
        length seeds
        = Z.to_nat (Z.min (Z.of_nat (length (seed_lines content))) num_examples))
    /\ (Z.of_nat (length lines) <= num_examples -> drawn ≡ₚ seed_lines content).
Proof.
  intros Hfile Hn Hparse lines selected drawn. subst lines selected drawn.
  pose proof (selected_lines_submseteq w content num_examples) as Hsub.
  pose proof (selected_lines_length w content num_examples Hn) as Hlen.
  destruct (parse_selected_ok (selected_lines w content num_examples) [])
    as (seeds & Hp & Hf2).
  { apply Forall_forall. intros line Hin. by apply Hparse. }
  exists seeds.
  rewrite (load_seed_examples_reads _ _ _ _ Hfile Hn). rewrite Hp.
  pose proof (Forall2_length _ _ _ Hf2) as Hl2.
  split_and?; try done.
  - rewrite <- Hl2, <- Hlen. apply length_filter.
  - intros Hall. rewrite Hall, <- Hl2, <- Hlen. f_equal.
    apply filter_all, Forall_forall. intros line Hin.
    assert (line ∈ seed_lines content) as Hs
        by (rewrite Hall; eapply elem_of_submseteq; [exact Hin | exact Hsub]).
    unfold seed_lines in Hs. by apply list_elem_of_filter in Hs as [? _].
  - intros Hall. unfold seed_lines.
    by rewrite (selected_lines_all w content num_examples Hall).
Qed.

(** C4 on the seed file of [Mock.good_world], asking for 3. *)
Lemma C4_sample_of_lines_witness :
  let content := Mock.seed_text +:+ nl in
  let lines := Str.readlines content in
  let selected := selected_lines Mock.good_world content 3 in
  let drawn := filter (fun line => Str.is_blank line = false) selected in
  exists seeds,
    fst (load_seed_examples "seeds.jsonl" 3 Mock.good_world) = Ok seeds
    /\ selected ⊆+ lines
    /\ length selected = Z.to_nat (Z.min (Z.of_nat (length lines)) 3)
    /\ Forall2 (fun line seed => loads line = Ok seed) drawn seeds
    /\ (length seeds <= Z.to_nat (Z.min (Z.of_nat (length lines)) 3))%nat
    /\ (seed_lines content = lines ->
        length seeds = Z.to_nat (Z.min (Z.of_nat (length (seed_lines content))) 3))
    /\ (Z.of_nat (length lines) <= 3 -> drawn ≡ₚ seed_lines content).
Proof.
  apply (C4_sample_of_lines "seeds.jsonl" 3 Mock.good_world (Mock.seed_text +:+ nl)).
  - reflexivity.
  - lia.
  - assert (selected_lines Mock.good_world (Mock.seed_text +:+ nl) 3
            = [Mock.seed_text +:+ nl]) as -> by (vm_compute; reflexivity).
    intros line Hin%list_elem_of_singleton _. subst line.
    eexists. vm_compute. reflexivity.
Defined.

(** C5 as stated fails: the seed file of [Mock.bad_last_world] has a
    fourth line that is not JSON, three examples are asked for and the
    generator draws the first three lines: the load returns three
    seeds. *)
Lemma C5_counterexample_bad_line_not_drawn :
  (exists line,
      line ∈ Str.readlines (default "" (fs Mock.bad_last_world !! "seeds.jsonl"))
      /\ Str.is_blank line = false
      /\ loads line = Raise JSONDecodeError)
  /\ exists seed1 seed2 seed3,
       fst (load_seed_examples "seeds.jsonl" 3 Mock.bad_last_world)
       = Ok [seed1; seed2; seed3].
Proof.
  split.
  - exists ("not json" +:+ nl). split_and?; [| reflexivity | vm_compute; reflexivity].
    assert (Str.readlines (default "" (fs Mock.bad_last_world !! "seeds.jsonl"))
            = [Mock.seed_text +:+ nl; Mock.seed_text +:+ nl; Mock.seed_text +:+ nl;
               "not json" +:+ nl]) as -> by (vm_compute; reflexivity).
    set_solver.
  - eexists _, _, _. vm_compute. reflexivity.
Qed.

(** C5, amended.  When one of the lines that [load_seed_examples] draws is
    not blank and does not parse, the load returns an empty list and
    prints the message about the format, whatever the other lines are;
    this is always so when the file has at most as many lines as are
    asked for (a bad line that is not drawn goes unnoticed).  A missing
    file also gives an empty list and a message.  With an empty seed
    list, [generate_synthetic_data] prints that it stops and returns,
    with nothing sent and no file touched. *)
Theorem C5_malformed_seed_line :
  (forall (filepath : string) (num_examples : Z) (w : world) (content line : string),
      fs w !! filepath = Some content ->
      0 <= num_examples ->
      Str.is_blank line = false ->
      loads line = Raise JSONDecodeError ->
      (line ∈ selected_lines w content num_examples
       \/ (line ∈ Str.readlines content
           /\ Z.of_nat (length (Str.readlines content)) <= num_examples)) ->
      exists w',
        load_seed_examples filepath num_examples w = (Ok [], w')
        /\ stdout w' = (stdout w ++ [bad_format_line filepath])%list)
  /\ (forall (filepath : string) (num_examples : Z) (w : world),
        fs w !! filepath = None ->
        exists w',
          load_seed_examples filepath num_examples w = (Ok [], w')
          /\ stdout w' = (stdout w ++ [not_found_line filepath])%list)
  /\ (forall (fuel : nat) (original_data_path output_path : string)
             (num_to_generate : Z) (w w1 : world),
        load_seed_examples original_data_path 3 w = (Ok [], w1) ->
        exists w',
          generate_synthetic_data fuel original_data_path output_path num_to_generate w
          = (Ok tt, w')
          /\ sent w' = sent w
          /\ fs w' = fs w
          /\ stdout w' = (stdout w1 ++ ["无法加载种子示例，流程终止。"])%list).
Proof.
  split_and?.
  - intros path n w content line Hfile Hn Hb Hl Hsel.
    assert (line ∈ selected_lines w content n) as Hin.
    { destruct Hsel as [? | [Hin Hall]]; [done |].
      by rewrite (selected_lines_all w content n Hall). }
    rewrite (load_seed_examples_reads _ _ _ _ Hfile Hn).
    rewrite (parse_selected_bad _ [] (ex_intro _ line (conj Hin (conj Hb Hl)))).
    eexists. split; reflexivity.
  - intros path n w Hfile. rewrite (load_seed_examples_missing _ _ _ Hfile).
    eexists. split; reflexivity.
  - intros fuel path out n w w1 Hl.
    unfold generate_synthetic_data, bind. rewrite Hl.
    apply load_seed_examples_frame in Hl as (Hf & Hs & _ & _).
    eexists. split; [reflexivity |]. simpl. by rewrite Hf, Hs.
Qed.

(** C5 on [Mock.bad_seed_world]: two lines, 3 asked for, the second is drawn. *)
Lemma C5_malformed_seed_line_witness :
  exists w',
    load_seed_examples "seeds.jsonl" 3 Mock.bad_seed_world = (Ok [], w')
    /\ stdout w' = (stdout Mock.bad_seed_world ++ [bad_format_line "seeds.jsonl"])%list.
Proof.
  destruct C5_malformed_seed_line as (H & _ & _).
  apply (H "seeds.jsonl" 3 Mock.bad_seed_world
           (Mock.seed_text +:+ nl +:+ "not json" +:+ nl) ("not json" +:+ nl)).
  - reflexivity.
  - lia.
  - reflexivity.
  - vm_compute. reflexivity.
  - right. split; [| vm_compute; discriminate].
    assert (Str.readlines (Mock.seed_text +:+ nl +:+ "not json" +:+ nl)
            = [Mock.seed_text +:+ nl; "not json" +:+ nl]) as ->
        by (vm_compute; reflexivity).
    set_solver.
Defined.

(** * Further properties of the script *)

(** ** [call_llm] *)








(** X3.  With the credential set and a body that parses, a subscript that
    raises [KeyError] or [IndexError] makes [call_llm] return [None]
    after printing two lines: the one about the structure, with the
    text of the exception, and the raw body. *)
Theorem X3_shape_failures_reported (messages : json) (w : world)
    (status : Z) (reason body : string) (v : json) (e : string) :
  has_text (API_KEY w) = true ->
  net w (length (sent w)) = Response status reason body ->
  ((400 <=? status) && (status <? 600)) = false ->
  loads body = Ok v ->
  completion_of v = Raise (KeyError e) \/ completion_of v = Raise (IndexError e) ->
  call_llm messages w
  = (Ok JNull,
     set_stdout (stdout w ++ [shape_failed_line e; raw_response_line body])
                (after_request w messages)).
Proof.
  intros Hk Hn Hs Hl Hc.
  rewrite (call_llm_answered messages w status reason body v Hk Hn Hs Hl).
  destruct Hc as [-> | ->]; unfold shape_failed, bind, print, ret; simpl;
    by rewrite <- app_assoc.
Qed.

(** X3 on the body [{}]: the key ['choices'] is missing. *)
Lemma X3_shape_failures_reported_witness :
  call_llm (chat_messages "system" "user") Cases.empty_object_world
  = (Ok JNull,
     set_stdout (stdout Cases.empty_object_world
                 ++ [shape_failed_line "'choices'"; raw_response_line "{}"])
                (after_request Cases.empty_object_world (chat_messages "system" "user"))).
Proof.
  apply (X3_shape_failures_reported (chat_messages "system" "user")
           Cases.empty_object_world 200 "OK" "{}" (JObj [])).
  - reflexivity.
  - reflexivity.
  - reflexivity.
  - vm_compute. reflexivity.
  - left. reflexivity.
Defined.

(** X4.  What the subscripts of [call_llm] do with a parsed body: a dict
    without ['choices'] raises [KeyError], an empty list of choices
    raises [IndexError], a first choice without ['message'] or a
    message without ['content'] raises [KeyError]; otherwise the
    content of the first choice is the result, whatever kind of value
    it is and whatever else the body holds. *)
Theorem X4_completion_of_cases :
  (forall d, dict_get "choices" d = None ->
             completion_of (JObj d) = Raise (KeyError "'choices'"))
  /\ (forall d, dict_get "choices" d = Some (JArr []) ->
                completion_of (JObj d) = Raise (IndexError "list index out of range"))
  /\ (forall d dc rest,
        dict_get "choices" d = Some (JArr (JObj dc :: rest)) ->
        dict_get "message" dc = None ->
        completion_of (JObj d) = Raise (KeyError "'message'"))
  /\ (forall d dc rest dm,
        dict_get "choices" d = Some (JArr (JObj dc :: rest)) ->
        dict_get "message" dc = Some (JObj dm) ->
        dict_get "content" dm = None ->
        completion_of (JObj d) = Raise (KeyError "'content'"))
  /\ (forall d dc rest dm content,
        dict_get "choices" d = Some (JArr (JObj dc :: rest)) ->
        dict_get "message" dc = Some (JObj dm) ->
        dict_get "content" dm = Some content ->
        completion_of (JObj d) = Ok content).
Proof.
  unfold completion_of. split_and?.
  - intros d H. simpl. by rewrite H.
  - intros d H. simpl. by rewrite H.
  - intros d dc rest H1 H2. simpl. rewrite H1. simpl.
    unfold index. simpl. by rewrite H2.
  - intros d dc rest dm H1 H2 H3. simpl. rewrite H1. simpl.
    unfold index. simpl. rewrite H2. simpl. by rewrite H3.
  - intros d dc rest dm content H1 H2 H3. simpl. rewrite H1. simpl.
    unfold index. simpl. rewrite H2. simpl. by rewrite H3.
Qed.

(** X4 on a body with two choices. *)
Lemma X4_completion_of_cases_witness :
  completion_of
    (JObj [("id", JStr "x");
           ("choices", JArr [JObj [("message", JObj [("content", JStr "first")])];
                             JObj [("message", JObj [("content", JStr "second")])]])])
  = Ok (JStr "first").
Proof.
  destruct X4_completion_of_cases as (_ & _ & _ & _ & H).
  eapply H; reflexivity.
Defined.

(** ** [load_seed_examples] *)





(** X6.  A negative count on a seed file that is there is not caught: the
    [ValueError] of [random.sample] leaves [load_seed_examples], with
    nothing printed. *)
Theorem X6_negative_count_raises (filepath : string) (num_examples : Z) (w : world)
    (content : string) :
  fs w !! filepath = Some content ->
  num_examples < 0 ->
  load_seed_examples filepath num_examples w = (Raise ValueError, w).
Proof.
  intros Hfile Hneg.
  unfold load_seed_examples, bind at 1, catch, bind at 1, read_lines.
  rewrite Hfile. unfold bind at 1, random_sample.
  by rewrite (proj2 (Z.ltb_lt _ 0)) by lia.
Qed.

(** X6 with a count of -1. *)
Lemma X6_negative_count_raises_witness :
  load_seed_examples "seeds.jsonl" (-1) Mock.good_world
  = (Raise ValueError, Mock.good_world).
Proof.
  apply (X6_negative_count_raises "seeds.jsonl" (-1) Mock.good_world
           (Mock.seed_text +:+ nl)); [reflexivity | lia].
Defined.

Lemma parse_selected_blank selected acc :
  Forall (fun line => Str.is_blank line = true) selected ->
  parse_selected selected acc = Ok acc.
Proof.
  induction 1 as [| line rest Hb _ IH]; [done |]. simpl. by rewrite Hb.
Qed.

(** X7.  A seed file with no line that is not blank (an empty file, or
    blank lines only) gives an empty seed list without a word from the
    loader; the run then prints that it stops, and only that, and
    leaves the files alone. *)
Theorem X7_blank_seed_file_stops_the_run (fuel : nat)
    (original_data_path output_path : string) (num_to_generate : Z) (w : world)
    (content : string) :
  fs w !! original_data_path = Some content ->
  seed_lines content = [] ->
  (forall num_examples, 0 <= num_examples ->
      exists w1, load_seed_examples original_data_path num_examples w = (Ok [], w1)
                 /\ stdout w1 = stdout w)
  /\ exists w',
       generate_synthetic_data fuel original_data_path output_path num_to_generate w
       = (Ok tt, w')
       /\ stdout w' = (stdout w ++ [no_seeds_line])%list
       /\ fs w' = fs w
       /\ sent w' = sent w.
Proof.
  intros Hfile Hblank.
  assert (forall n, 0 <= n ->
            exists w1, load_seed_examples original_data_path n w = (Ok [], w1)
                       /\ stdout w1 = stdout w /\ fs w1 = fs w /\ sent w1 = sent w)
    as Hload.
  { intros n Hn. rewrite (load_seed_examples_reads _ _ _ _ Hfile Hn).
    rewrite parse_selected_blank; [eexists; by split_and? |].
    apply Forall_forall. intros line Hin.
    destruct (Str.is_blank line) eqn:Hb; [done |]. exfalso.
    eapply (filter_nil_not_elem_of _ _ line Hblank); [exact Hb |].
    eapply elem_of_submseteq; [exact Hin | apply selected_lines_submseteq]. }
  split.
  - intros n Hn. destruct (Hload n Hn) as (w1 & H & Ho & _). eauto.
  - destruct (Hload 3 ltac:(lia)) as (w1 & H & Ho & Hf & Hs).
    unfold generate_synthetic_data, bind. rewrite H.
    eexists. split; [reflexivity |]. simpl. by rewrite Ho, Hf, Hs.
Qed.

(** X7 on a seed file of two blank lines. *)
Lemma X7_blank_seed_file_stops_the_run_witness :
  exists w',
    generate_synthetic_data 5 "seeds.jsonl" "out.jsonl" 50 Cases.blank_seed_world
    = (Ok tt, w')
    /\ stdout w' = (stdout Cases.blank_seed_world ++ [no_seeds_line])%list
    /\ fs w' = fs Cases.blank_seed_world
    /\ sent w' = sent Cases.blank_seed_world.
Proof.
  apply (X7_blank_seed_file_stops_the_run 5 "seeds.jsonl" "out.jsonl" 50
           Cases.blank_seed_world (nl +:+ "  " +:+ nl)).
  - reflexivity.
  - vm_compute. reflexivity.
Defined.

(** ** [build_system_prompt] *)

Lemma user_messages_dicts msgs :
  Forall (fun m => is_dict m = true) msgs ->
  user_messages msgs = Ok (List.filter has_user_role msgs).
Proof.
  induction 1 as [| m msgs Hm _ IH]; [done |].
  destruct m as [| | | | | | d]; try done. simpl. rewrite IH.
  by destruct (is_str "user" _).
Qed.

Lemma user_messages_not_dict msgs :
  Exists (fun m => is_dict m = false) msgs ->
  user_messages msgs = Raise AttributeError.
Proof.
  induction 1 as [m msgs Hm | m msgs _ IH].
  - by destruct m.
  - simpl. rewrite IH. by destruct m.
Qed.

Lemma filter_has_user_role_dicts msgs :
  Forall (fun m => is_dict m = true) (List.filter has_user_role msgs).
Proof.
  apply Forall_forall. intros m Hin%list_elem_of_In%filter_In. destruct Hin as [_ Hm].
  by destruct m.
Qed.

Lemma filter_has_user_role_idemp msgs :
  List.filter has_user_role (List.filter has_user_role msgs)
  = List.filter has_user_role msgs.
Proof.
  induction msgs as [| m msgs IH]; [done |]. simpl.
  destruct (has_user_role m) eqn:Hm; [| done]. simpl. by rewrite Hm, IH.
Qed.

(** X8.  Of a seed that is a dict whose messages (none, when the key is
    missing) are dicts, the prompt sees the messages whose role is
    ["user"], in their order, and the condition (an empty list when the
    key is missing), and nothing else: other messages and other keys
    are dropped.  Projecting twice changes nothing. *)
Theorem X8_seed_projection (d : list (string * json)) (msgs : list json) :
  default (JArr []) (dict_get "messages" d) = JArr msgs ->
  Forall (fun m => is_dict m = true) msgs ->
  simplified_example (JObj d) = Ok (projection d msgs)
  /\ simplified_example (projection d msgs) = Ok (projection d msgs)
  /\ Forall (fun m => has_user_role m = true) (List.filter has_user_role msgs).
Proof.
  intros Hm Hd. unfold simplified_example, projection. simpl.
  rewrite Hm. simpl. rewrite (user_messages_dicts _ Hd).
  rewrite (user_messages_dicts _ (filter_has_user_role_dicts msgs)).
  rewrite filter_has_user_role_idemp. split_and?; try done.
  apply Forall_forall. by intros m [_ Hin]%list_elem_of_In%filter_In.
Qed.

(** X8 on a seed with a system, a user and an assistant message. *)
Lemma X8_seed_projection_witness :
  simplified_example Cases.rich_seed
  = Ok (JObj [("messages", JArr [JObj [("role", JStr "user"); ("content", JStr "u")]]);
              ("condition", JArr [JInt 1])]).
Proof.
  destruct (X8_seed_projection
              [("messages",
                JArr [JObj [("role", JStr "system"); ("content", JStr "s")];
                      JObj [("role", JStr "user"); ("content", JStr "u")];
                      JObj [("role", JStr "assistant"); ("content", JStr "a")]]);
               ("condition", JArr [JInt 1]);
               ("id", JStr "x")]
              [JObj [("role", JStr "system"); ("content", JStr "s")];
               JObj [("role", JStr "user"); ("content", JStr "u")];
               JObj [("role", JStr "assistant"); ("content", JStr "a")]])
    as (H & _ & _).
  - reflexivity.
  - repeat constructor.
  - exact H.
Defined.

(** X9.  What a seed of another shape does to the prompt builder: a seed
    that is not a dict, or a message that is not a dict, raises
    [AttributeError]; messages that are [null], a boolean or a number
    raise [TypeError]. *)
Theorem X9_seed_shape_errors :
  (forall example, is_dict example = false ->
                   simplified_example example = Raise AttributeError)
  /\ (forall d messages,
        dict_get "messages" d = Some messages ->
        not_iterable messages = true ->
        simplified_example (JObj d) = Raise TypeError)
  /\ (forall d msgs,
        dict_get "messages" d = Some (JArr msgs) ->
        Exists (fun m => is_dict m = false) msgs ->
        simplified_example (JObj d) = Raise AttributeError).
Proof.
  unfold simplified_example. split_and?.
  - intros example H. by destruct example.
  - intros d messages Hm Hn. simpl. rewrite Hm. simpl. by destruct messages.
  - intros d msgs Hm He. simpl. rewrite Hm. simpl.
    by rewrite (user_messages_not_dict _ He).
Qed.

(** X9 on a seed whose messages are [null]. *)
Lemma X9_seed_shape_errors_witness :
  simplified_example (JObj [("messages", JNull); ("condition", JArr [])])
  = Raise TypeError.
Proof.
  destruct X9_seed_shape_errors as (_ & H & _).
  apply (H [("messages", JNull); ("condition", JArr [])] JNull); reflexivity.
Defined.

Lemma add_examples_ok seeds :
  forall simplified i prompt,
    Forall2 (fun example s => simplified_example example = Ok s) seeds simplified ->
    add_examples i seeds prompt
    = Ok (prompt +:+ Str.concat (imap (fun j => example_block (i + j)) simplified)).
Proof.
  induction seeds as [| example seeds IH]; intros simplified i prompt Hf.
  - apply Forall2_nil_inv_l in Hf as ->. simpl. by rewrite string_app_nil_r.
  - apply Forall2_cons_inv_l in Hf as (s & simplified' & Hs & Hf & ->).
    cbn [add_examples]. rewrite Hs. rewrite (IH simplified' (S i) _ Hf). f_equal.
    rewrite imap_cons.
    rewrite (imap_ext ((fun j => example_block (i + j)) ∘ S)
               (fun j => example_block (S i + j)) simplified')
      by (intros; simpl; f_equal; lia).
    change (Str.concat (example_block (i + 0) s :: ?l))
      with (example_block (i + 0) s +:+ Str.concat l).
    rewrite Nat.add_0_r. unfold example_block at 2.
    by rewrite !string_app_assoc.
Qed.

Lemma add_examples_raises good :
  forall bad rest e i prompt,
    Forall (fun s => exists v, simplified_example s = Ok v) good ->
    simplified_example bad = Raise e ->
    add_examples i (good ++ bad :: rest)%list prompt = Raise e.
Proof.
  induction good as [| s good IH]; intros bad rest e i prompt Hg Hb; simpl.
  - by rewrite Hb.
  - apply Forall_cons in Hg as [[v Hv] Hg]. rewrite Hv. by apply IH.
Qed.

(** X10.  The system prompt is a fixed header, one block per seed in the
    order of the seeds, numbered from 1 and holding the projection of
    the seed printed with an indent of 2, and a footer that lists the
    constraint labels joined by a comma and a space.  So the prompt
    depends on the seeds through their projections only. *)
Theorem X10_prompt_layout (seed_examples : list json) (simplified : list json)
    (constraint_list : list string) :
  Forall2 (fun example s => simplified_example example = Ok s) seed_examples simplified ->
  build_system_prompt seed_examples constraint_list
  = Ok (prompt_header +:+ Str.concat (imap example_block simplified)
        +:+ prompt_footer constraint_list)
  /\ forall others,
       Forall2 (fun example s => simplified_example example = Ok s) others simplified ->
       build_system_prompt others constraint_list
       = build_system_prompt seed_examples constraint_list.
Proof.
  assert (forall seeds,
             Forall2 (fun example s => simplified_example example = Ok s) seeds simplified ->
             build_system_prompt seeds constraint_list
             = Ok (prompt_header +:+ Str.concat (imap example_block simplified)
                   +:+ prompt_footer constraint_list)) as Hlayout.
  { intros seeds Hf. unfold build_system_prompt.
    rewrite (add_examples_ok _ _ 0%nat _ Hf).
    unfold prompt_header, prompt_footer. cbn zeta. f_equal.
    by rewrite !string_app_assoc. }
  intros Hf. split; [by apply Hlayout |].
  intros others Ho. by rewrite !Hlayout.
Qed.

(** X10 on one seed with a system, a user and an assistant message. *)
Lemma X10_prompt_layout_witness :
  build_system_prompt [Cases.rich_seed] ["a"; "b"]
  = Ok (prompt_header
        +:+ Str.concat
              [example_block 0
                 (JObj [("messages",
                         JArr [JObj [("role", JStr "user"); ("content", JStr "u")]]);
                        ("condition", JArr [JInt 1])])]
        +:+ prompt_footer ["a"; "b"]).
Proof.
  destruct (X10_prompt_layout [Cases.rich_seed]
              [JObj [("messages",
                      JArr [JObj [("role", JStr "user"); ("content", JStr "u")]]);
                     ("condition", JArr [JInt 1])]]
              ["a"; "b"]) as [H _].
  - constructor; [reflexivity | constructor].
  - exact H.
Defined.

(** X11.  The prompt builder raises what the first seed of a wrong shape
    raises, and [generate_synthetic_data] does not catch it: the run
    ends with that exception before the output file is opened and
    before anything is sent. *)
Theorem X11_bad_seed_shape_ends_the_run (fuel : nat)
    (original_data_path output_path : string) (num_to_generate : Z) (w : world)
    (good : list json) (bad : json) (rest : list json) (e : exn) :
  fst (load_seed_examples original_data_path 3 w) = Ok (good ++ bad :: rest)%list ->
  Forall (fun s => exists v, simplified_example s = Ok v) good ->
  simplified_example bad = Raise e ->
  build_system_prompt (good ++ bad :: rest)%list all_constraints = Raise e
  /\ exists w',
       generate_synthetic_data fuel original_data_path output_path num_to_generate w
       = (Raise e, w')
       /\ fs w' = fs w
       /\ sent w' = sent w.
Proof.
  intros Hl Hg Hb.
  assert (build_system_prompt (good ++ bad :: rest)%list all_constraints = Raise e) as Hp.
  { unfold build_system_prompt. by rewrite (add_examples_raises good bad rest e). }
  split; [done |].
  unfold generate_synthetic_data, bind.
  destruct (load_seed_examples original_data_path 3 w) as [r w0] eqn:El.
  apply load_seed_examples_frame in El as (Hf & Hs & _ & _).
  simpl in Hl. subst r. rewrite Hp. unfold lift.
  destruct (good ++ bad :: rest)%list eqn:Hne; [by destruct good |].
  by eexists.
Qed.

(** X11 on a seed file whose only line is the number 5. *)
Lemma X11_bad_seed_shape_ends_the_run_witness :
  exists w',
    generate_synthetic_data 1 "seeds.jsonl" "out.jsonl" 50 Cases.number_seed_world
    = (Raise AttributeError, w')
    /\ fs w' = fs Cases.number_seed_world
    /\ sent w' = sent Cases.number_seed_world.
Proof.
  destruct (X11_bad_seed_shape_ends_the_run 1 "seeds.jsonl" "out.jsonl" 50
              Cases.number_seed_world [] (JInt 5) [] AttributeError) as [_ H].
  - vm_compute. reflexivity.
  - constructor.
  - reflexivity.
  - exact H.
Defined.

(** ** [generate_synthetic_data] *)

Lemma chat_request_env (w1 w : world) (messages : json) :
  env w1 = env w -> chat_request w1 messages = chat_request w messages.
Proof.
  intros He. unfold chat_request, API_URL, API_KEY, MODEL_NAME. by rewrite He.
Qed.

Lemma loop_request_env (w1 w : world) (sp : string) (rq : request) :
  env w1 = env w -> loop_request w1 sp rq -> loop_request w sp rq.
Proof.
  intros He (a & b & Hab & Ha & Hb & ->). exists a, b.
  by rewrite (chat_request_env _ _ _ He).
Qed.

(** Without the credential [call_llm] returns [None] and sends nothing;
    with it, it sends its request whatever comes back. *)
Lemma call_llm_sent messages w r w' :
  call_llm messages w = (r, w') ->
  (has_text (API_KEY w) = false /\ r = Ok JNull /\ sent w' = sent w)
  \/ (has_text (API_KEY w) = true
      /\ sent w' = (sent w ++ [chat_request w messages])%list).
Proof.
  destruct (has_text (API_KEY w)) eqn:Hk.
  2: { rewrite call_llm_without_key by done. intros H. simplify_eq. by left. }
  intros H. right. split; [done |]. revert H.
  destruct (net w (length (sent w))) as [msg | status reason body] eqn:Hn.
  { rewrite (call_llm_post_raises _ _ _ Hk Hn). unfold request_failed, bind, print, ret.
    intros H. by simplify_eq. }
  destruct ((400 <=? status) && (status <? 600)) eqn:Hs.
  { destruct (call_llm_http_error messages _ _ _ _ Hk Hn Hs) as [e ->].
    unfold request_failed, bind, print, ret. intros H. by simplify_eq. }
  destruct (loads_cases body) as [[v Hl] | Hl].
  2: { rewrite (call_llm_bad_body _ _ _ _ _ Hk Hn Hs Hl).
       unfold request_failed, bind, print, ret. intros H. by simplify_eq. }
  rewrite (call_llm_answered _ _ _ _ _ _ Hk Hn Hs Hl).
  destruct (completion_of v) as [c | [] |];
    unfold request_failed, shape_failed, bind, print, ret;
    intros H; by simplify_eq.
Qed.

(** One pass sends at most one request, and counts only if it sent one. *)
Lemma attempt_sent sp out n c w r w' :
  attempt sp out n c w = (r, w') ->
  env w' = env w
  /\ ((sent w' = sent w /\ forall c', r = Ok c' -> c' = c)
      \/ exists rq,
           loop_request w sp rq
           /\ sent w' = (sent w ++ [rq])%list
           /\ forall c', r = Ok c' -> c' = c \/ c' = c + 1).
Proof.
  destruct (attempt_draws sp out n c w) as (a & b & w1 & _ & Hab & Ha & Hb & Hw1 & _ & ->).
  destruct Hw1 as (_ & _ & _ & He & _ & Hsent).
  unfold request_record, bind.
  destruct (call_llm _ w1) as [[resp | e |] w2] eqn:Ec;
    pose proof (call_llm_frame _ _ _ _ Ec) as (_ & Ke & _);
    apply call_llm_sent in Ec as Hs; intros H.
  - apply handle_response_cases in H as (_ & Hs' & He' & _ & Hh).
    split; [congruence |].
    assert (forall c', r = Ok c' -> c' = c \/ c' = c + 1) as Hcount.
    { intros c' ->.
      destruct Hh as [(_ & _ & Hc) | (_ & _ & _ & _ & _ & _ & Hc & _)];
        [left; by apply Hc | right; congruence]. }
    destruct Hs as [(_ & Hr & Hs) | [_ Hs]].
    + left. split; [congruence |]. intros c' Hc'.
      destruct Hh as [(_ & _ & Hc) | (text & _ & Hresp & _)]; [by apply Hc | congruence].
    + right. exists (chat_request w (chat_messages sp (user_prompt a b))).
      split; [by exists a, b |]. split; [| done].
      rewrite Hs', Hs, Hsent. by rewrite (chat_request_env _ _ _ He).
  - simplify_eq. split; [congruence |].
    destruct Hs as [(_ & Hr & _) | [_ Hs]]; [done |].
    right. exists (chat_request w (chat_messages sp (user_prompt a b))).
    split; [by exists a, b |]. split; [| done].
    rewrite Hs, Hsent. by rewrite (chat_request_env _ _ _ He).
  - simplify_eq. split; [congruence |].
    destruct Hs as [(_ & Hr & _) | [_ Hs]]; [done |].
    right. exists (chat_request w (chat_messages sp (user_prompt a b))).
    split; [by exists a, b |]. split; [| done].
    rewrite Hs, Hsent. by rewrite (chat_request_env _ _ _ He).
Qed.

Lemma generation_loop_sent fuel sp out n :
  forall c w r w',
    generation_loop fuel sp out n c w = (r, w') ->
    env w' = env w
    /\ exists reqs,
         sent w' = (sent w ++ reqs)%list
         /\ Forall (loop_request w sp) reqs
         /\ (length reqs <= fuel)%nat
         /\ forall c', r = Ok c' -> c' - c <= Z.of_nat (length reqs).
Proof.
  induction fuel as [| fuel IH]; intros c w r w'; simpl.
  - destruct (c <? n); unfold out_of_fuel, ret; intros H; simplify_eq;
      (split; [done |]); exists []; rewrite app_nil_r;
      (split_and?; [done | constructor | simpl; lia |]);
      intros c' Hc'; simplify_eq/=; lia.
  - destruct (c <? n).
    2: { unfold ret. intros H. simplify_eq. split; [done |].
         exists []. rewrite app_nil_r. split_and?; [done | constructor | simpl; lia |].
         intros c' Hc'. simplify_eq/=. lia. }
    unfold bind.
    destruct (attempt sp out n c w) as [[c1 | e |] w1] eqn:Ea;
      apply attempt_sent in Ea as (He & Hcase).
    + intros H. apply IH in H as (He' & reqs & Hs & Hall & Hlen & Hc).
      split; [congruence |].
      assert (Forall (loop_request w sp) reqs) as Hall'.
      { eapply Forall_impl; [exact Hall |]. intros rq. by apply loop_request_env. }
      destruct Hcase as [(Hs1 & Hc1) | (rq & Hrq & Hs1 & Hc1)].
      * exists reqs. rewrite Hs, Hs1. split_and?; [done | done | lia |].
        intros c' Hc'. specialize (Hc _ Hc'). rewrite (Hc1 _ eq_refl) in Hc. lia.
      * exists (rq :: reqs). rewrite Hs, Hs1, <- app_assoc.
        split_and?; [done | by constructor | simpl; lia |].
        intros c' Hc'. specialize (Hc _ Hc'). rewrite length_cons.
        destruct (Hc1 _ eq_refl); lia.
    + intros H. simplify_eq. split; [done |].
      destruct Hcase as [(Hs1 & _) | (rq & Hrq & Hs1 & _)].
      * exists []. rewrite app_nil_r. split_and?; [done | constructor | simpl; lia | done].
      * exists [rq]. split_and?; [done | by repeat constructor | simpl; lia | done].
    + intros H. simplify_eq. split; [done |].
      destruct Hcase as [(Hs1 & _) | (rq & Hrq & Hs1 & _)].
      * exists []. rewrite app_nil_r. split_and?; [done | constructor | simpl; lia | done].
      * exists [rq]. split_and?; [done | by repeat constructor | simpl; lia | done].
Qed.

(** With seeds, a run is: build the prompt, empty the output file, loop,
    print the summary. *)
Lemma generate_synthetic_data_with_seeds fuel path out n w seeds w0 :
  load_seed_examples path 3 w = (Ok seeds, w0) ->
  seeds <> [] ->
  generate_synthetic_data fuel path out n w
  = match build_system_prompt seeds all_constraints with
    | Ok sp =>
        match generation_loop fuel sp out n 0 (set_fs (<[out := ""]> (fs w0)) w0) with
        | (Ok c, w2) => (Ok tt, set_stdout (stdout w2 ++ [summary_line c out]) w2)
        | (Raise e, w2) => (Raise e, w2)
        | (Exhausted, w2) => (Exhausted, w2)
        end
    | Raise e => (Raise e, w0)
    | Exhausted => (Exhausted, w0)
    end.
Proof.
  intros Hl Hne. unfold generate_synthetic_data, bind at 1. rewrite Hl.
  destruct seeds as [| seed seeds]; [done |].
  unfold bind at 1, lift.
  destruct (build_system_prompt _ _) as [sp | e |]; [| done ..].
  unfold bind at 1, open_write. unfold bind at 1.
  destruct (generation_loop _ _ _ _ _ _) as [[c | e |] w2]; reflexivity.
Qed.

Lemma generation_loop_done fuel sp out n c w :
  n <= c -> generation_loop fuel sp out n c w = (Ok c, w).
Proof. intros Hle. destruct fuel; simpl; by rewrite (proj2 (Z.ltb_ge c n)). Qed.


(** X12.  Whatever way a run ends, it has changed no file but the one at
    the output path. *)
Theorem X12_only_the_output_file_changes (fuel : nat)
    (original_data_path output_path : string) (num_to_generate : Z) (w : world)
    (p : string) :
  p <> output_path ->
  fs (snd (generate_synthetic_data fuel original_data_path output_path
                                   num_to_generate w)) !! p
  = fs w !! p.
Proof.
  intros Hp.
  destruct (generate_synthetic_data _ _ _ _ _) as [r w'] eqn:H. simpl.
  apply generate_synthetic_data_trace in H
    as [-> | (w1 & r1 & recs & _ & Hf1 & (Hf & _) & _)]; [done |].
  by rewrite Hf, Hf1, after_writes_fresh_other.
Qed.

(** X12 on the seed file of [Mock.good_world] after a run with target 2. *)
Lemma X12_only_the_output_file_changes_witness :
  fs (snd (generate_synthetic_data 3 "seeds.jsonl" "out.jsonl" 2 Mock.good_world))
  !! "seeds.jsonl"
  = fs Mock.good_world !! "seeds.jsonl".
Proof.
  apply (X12_only_the_output_file_changes 3 "seeds.jsonl" "out.jsonl" 2 Mock.good_world
           "seeds.jsonl").
  discriminate.
Defined.



(** X14.  With a target below 1 a run that has seeds and a prompt still
    opens the output file, which ends up empty whatever it held, sends
    nothing and prints the summary with count 0; no pass of the loop is
    needed. *)
Theorem X14_nothing_to_generate (fuel : nat)
    (original_data_path output_path : string) (num_to_generate : Z) (w : world)
    (seed_examples : list json) (system_prompt : string) :
  fst (load_seed_examples original_data_path 3 w) = Ok seed_examples ->
  seed_examples <> [] ->
  build_system_prompt seed_examples all_constraints = Ok system_prompt ->
  num_to_generate <= 0 ->
  exists w',
    generate_synthetic_data fuel original_data_path output_path num_to_generate w
    = (Ok tt, w')
    /\ fs w' = <[output_path := ""]> (fs w)
    /\ sent w' = sent w
    /\ last (stdout w') = Some (summary_line 0 output_path).
Proof.
  intros Hl Hne Hsp Hn.
  destruct (load_seed_examples original_data_path 3 w) as [r0 w0] eqn:El.
  simpl in Hl. subst r0.
  rewrite (generate_synthetic_data_with_seeds _ _ _ _ _ _ _ El Hne), Hsp.
  apply load_seed_examples_frame in El as (Hf0 & Hs0 & _).
  rewrite generation_loop_done by done.
  eexists. split; [reflexivity |]. simpl. rewrite Hf0, Hs0, last_snoc. done.
Qed.

(** X14 on [Mock.good_world], with the seed file itself as output path
    and target 0. *)
Lemma X14_nothing_to_generate_witness :
  exists w',
    generate_synthetic_data 0 "seeds.jsonl" "seeds.jsonl" 0 Mock.good_world
    = (Ok tt, w')
    /\ fs w' = <["seeds.jsonl" := ""]> (fs Mock.good_world)
    /\ sent w' = sent Mock.good_world
    /\ last (stdout w') = Some (summary_line 0 "seeds.jsonl").
Proof.
  destruct (build_system_prompt
              [JObj [("messages", JArr [JObj [("role", JStr "user");
                                              ("content", JStr "hi")]]);
                     ("condition", JArr [])]] all_constraints) as [sp | e |] eqn:Hsp;
    [| vm_compute in Hsp; discriminate ..].
  apply (X14_nothing_to_generate 0 "seeds.jsonl" "seeds.jsonl" 0 Mock.good_world
           [JObj [("messages", JArr [JObj [("role", JStr "user");
                                           ("content", JStr "hi")]]);
                  ("condition", JArr [])]] sp).
  - vm_compute. reflexivity.
  - discriminate.
  - exact Hsp.
  - lia.
Defined.

(** X15.  The requests of a run that has seeds and a prompt: the run adds
    to the requests sent, at most one per pass of the loop; each carries
    the system prompt built from the seeds and a user instruction that
    names two different labels of the vocabulary; and a normal end has
    cost at least one request per record of the target. *)
Theorem X15_requests_of_a_run (fuel : nat)
    (original_data_path output_path : string) (num_to_generate : Z) (w : world)
    (seed_examples : list json) (system_prompt : string) (r : outcome unit)
    (w' : world) :
  fst (load_seed_examples original_data_path 3 w) = Ok seed_examples ->
  seed_examples <> [] ->
  build_system_prompt seed_examples all_constraints = Ok system_prompt ->
  generate_synthetic_data fuel original_data_path output_path num_to_generate w
  = (r, w') ->
  exists reqs,
    sent w' = (sent w ++ reqs)%list
    /\ Forall (loop_request w system_prompt) reqs
    /\ (length reqs <= fuel)%nat
    /\ (r = Ok tt -> (Z.to_nat num_to_generate <= length reqs)%nat).
Proof.
  intros Hl Hne Hsp.
  destruct (load_seed_examples original_data_path 3 w) as [r0 w0] eqn:El.
  simpl in Hl. subst r0.
  rewrite (generate_synthetic_data_with_seeds _ _ _ _ _ _ _ El Hne), Hsp.
  apply load_seed_examples_frame in El as (_ & Hs0 & He0 & _).
  destruct (generation_loop _ _ _ _ _ _) as [r1 w2] eqn:Eg.
  pose proof Eg as Eg'.
  apply generation_loop_sent in Eg as (_ & reqs & Hs & Hall & Hlen & Hc).
  simpl in Hs. rewrite Hs0 in Hs.
  assert (Forall (loop_request w system_prompt) reqs) as Hall'.
  { eapply Forall_impl; [exact Hall |]. intros rq. by apply loop_request_env. }
  destruct r1 as [c | e |]; intros H; simplify_eq; exists reqs;
    (split_and?; [done | done | done |]); [| done ..].
  intros _. specialize (Hc _ eq_refl).
  destruct (Z.le_gt_cases 0 num_to_generate) as [Hn | Hn]; [| lia].
  apply generation_loop_final in Eg'; [lia | done].
Qed.

(** X15 on a run of [Mock.good_world] with target 2. *)
Lemma X15_requests_of_a_run_witness :
  exists sp reqs,
    sent (snd (generate_synthetic_data 3 "seeds.jsonl" "out.jsonl" 2 Mock.good_world))
    = (sent Mock.good_world ++ reqs)%list
    /\ Forall (loop_request Mock.good_world sp) reqs
    /\ (length reqs <= 3)%nat.
Proof.
  destruct (build_system_prompt
              [JObj [("messages", JArr [JObj [("role", JStr "user");
                                              ("content", JStr "hi")]]);
                     ("condition", JArr [])]] all_constraints) as [sp | e |] eqn:Hsp;
    [| vm_compute in Hsp; discriminate ..].
  exists sp.
  destruct (X15_requests_of_a_run 3 "seeds.jsonl" "out.jsonl" 2 Mock.good_world
              [JObj [("messages", JArr [JObj [("role", JStr "user");
                                              ("content", JStr "hi")]]);
                     ("condition", JArr [])]] sp
              (fst (generate_synthetic_data 3 "seeds.jsonl" "out.jsonl" 2
                                            Mock.good_world))
              (snd (generate_synthetic_data 3 "seeds.jsonl" "out.jsonl" 2
                                            Mock.good_world)))
    as (reqs & Hs & Hall & Hlen & _).
  - vm_compute. reflexivity.
  - discriminate.
  - exact Hsp.
  - apply surjective_pairing.
  - by exists reqs.
Defined.

(** ** Answers that are not the text of an object *)

(** X16.  Answers the loop does not skip but dies of.  A completion that
    is truthy and not a string, and a string that holds a JSON number,
    boolean or [null], raise [TypeError] with nothing changed.  A
    string that holds a JSON list or string in which both keys are
    found raises [TypeError] at the assignment of the id, after an id
    was drawn.  An object with both keys whose text cannot be encoded
    raises [UnicodeEncodeError] at the write.  None of them is caught,
    none writes anything. *)
Theorem X16_answers_that_raise (output_path : string) (count : Z) (w : world) :
  (forall llm_response_str,
      truthy llm_response_str = true ->
      (forall text, llm_response_str <> JStr text) ->
      handle_response output_path llm_response_str count w = (Raise TypeError, w))
  /\ (forall text v,
        loads text = Ok v ->
        not_iterable v = true ->
        handle_response output_path (JStr text) count w = (Raise TypeError, w))
  /\ (forall text v,
        loads text = Ok v ->
        is_dict v = false ->
        has_required_keys v = Ok true ->
        handle_response output_path (JStr text) count w
        = (Raise TypeError, set_uuid_pos (S (uuid_pos w)) w))
  /\ (forall text members,
        loads text = Ok (JObj members) ->
        dict_has "messages" members = true ->
        dict_has "condition" members = true ->
        utf8_encodable (chunk (tagged (uuids w) (uuid_pos w, members))) = false ->
        handle_response output_path (JStr text) count w
        = (Raise UnicodeEncodeError, set_uuid_pos (S (uuid_pos w)) w)).
Proof.
  split_and?.
  - intros resp Ht Hns. unfold handle_response. rewrite Ht.
    unfold bind, catch, validate_and_persist, bind, lift, loads_value.
    destruct resp; try done. by destruct (Hns s).
  - intros text v Hl Hv. unfold handle_response. rewrite (truthy_parsed _ _ Hl).
    unfold bind, catch, validate_and_persist, bind, lift, loads_value.
    rewrite Hl. by destruct v.
  - intros text v Hl Hd Hk. unfold handle_response. rewrite (truthy_parsed _ _ Hl).
    unfold bind, catch, validate_and_persist, bind, lift, loads_value.
    rewrite Hl, Hk. simpl. by destruct v.
  - intros text d Hl Hm Hc Henc. unfold handle_response. rewrite (truthy_parsed _ _ Hl).
    unfold bind, catch, validate_and_persist, bind, lift, loads_value.
    rewrite Hl, has_required_keys_dict, Hm, Hc. simpl.
    unfold write_flush. simpl. unfold chunk, tagged in Henc. simpl in Henc.
    by rewrite Henc.
Qed.

(** X16 on the answer [["messages", "condition"]]. *)
Lemma X16_answers_that_raise_witness :
  handle_response "out.jsonl" (JStr Cases.list_text) 0 Mock.good_world
  = (Raise TypeError, set_uuid_pos 1 Mock.good_world).
Proof.
  destruct (X16_answers_that_raise "out.jsonl" 0 Mock.good_world) as (_ & _ & H & _).
  apply (H Cases.list_text (JArr [JStr "messages"; JStr "condition"])).
  - vm_compute. reflexivity.
  - reflexivity.
  - reflexivity.
Defined.

(** ** The entry point *)



(** ** The credential, and the answers the loop skips *)

(** X18.  [call_llm] sends nothing exactly when the variable
    [LLM_API_KEY] is unset or empty; any other value, even a blank one,
    goes out with the request. *)
Theorem X18_request_needs_credential (messages : json) (w : world) :
  sent (snd (call_llm messages w)) = sent w
  <-> (env w !! "LLM_API_KEY" = None \/ env w !! "LLM_API_KEY" = Some "").
Proof.
  destruct (call_llm messages w) as [r w'] eqn:H. simpl.
  apply call_llm_sent in H as [(Hk & _ & Hs) | (Hk & Hs)];
    unfold has_text, API_KEY in Hk.
  - split; [intros _ | done].
    destruct (env w !! "LLM_API_KEY") as [k |]; [right | by left].
    apply negb_false_iff, String.eqb_eq in Hk. by subst.
  - split.
    + intros Heq. rewrite Heq in Hs. apply (f_equal length) in Hs.
      rewrite length_app in Hs. simpl in Hs. lia.
    + intros [Hn | He]; [by rewrite Hn in Hk | by rewrite He in Hk].
Qed.

(** X18 on [Mock.no_key_world], where the variable is unset. *)
Lemma X18_request_needs_credential_witness :
  sent (snd (call_llm (chat_messages "system" "user") Mock.no_key_world))
  = sent Mock.no_key_world.
Proof.
  apply (X18_request_needs_credential (chat_messages "system" "user") Mock.no_key_world).
  left. reflexivity.
Defined.

(** X19.  The answers the loop skips, and what it prints for each: a
    falsy answer ([None], but also an empty string, 0, [false], an
    empty list or dict) counts as a failed call; text that is not JSON
    is shown back; JSON without the two keys is reported as incomplete.
    The counter stays and nothing but the console changes. *)
Theorem X19_skipped_answers (output_path : string) (count : Z) (w : world) :
  (forall llm_response_str,
      truthy llm_response_str = false ->
      handle_response output_path llm_response_str count w
      = (Ok count, set_stdout (stdout w ++ [call_failed_line]) w))
  /\ (forall text,
        text <> "" ->
        loads text = Raise JSONDecodeError ->
        handle_response output_path (JStr text) count w
        = (Ok count,
           set_stdout (stdout w ++ [not_json_line; invalid_content_line text]) w))
  /\ (forall text v,
        loads text = Ok v ->
        has_required_keys v = Ok false ->
        handle_response output_path (JStr text) count w
        = (Ok count, set_stdout (stdout w ++ [incomplete_line]) w)).
Proof.
  split_and?.
  - intros resp Ht. unfold handle_response. by rewrite Ht.
  - intros text Hne Hl. unfold handle_response.
    assert (truthy (JStr text) = true) as ->.
    { simpl. apply negb_true_iff, String.eqb_neq. done. }
    unfold bind, catch, validate_and_persist, bind, lift, loads_value.
    rewrite Hl. unfold print, ret, set_stdout. simpl. by rewrite <- app_assoc.
  - intros text v Hl Hk. unfold handle_response. rewrite (truthy_parsed _ _ Hl).
    unfold bind, catch, validate_and_persist, bind, lift, loads_value.
    by rewrite Hl, Hk.
Qed.

(** X19 on an answer that is a sentence, not JSON. *)
Lemma X19_skipped_answers_witness :
  handle_response "out.jsonl" (JStr "Sorry, I cannot.") 0 Mock.good_world
  = (Ok 0,
     set_stdout (stdout Mock.good_world
                 ++ [not_json_line; invalid_content_line "Sorry, I cannot."])
                Mock.good_world).
Proof.
  destruct (X19_skipped_answers "out.jsonl" 0 Mock.good_world) as (_ & H & _).
  apply (H "Sorry, I cannot.").
  - discriminate.
  - vm_compute. reflexivity.
Defined.

(** ** What can end a run *)










